(** * ReusableChatbot (chatbot.js): message lifecycle, keyword resolver and
      local persistence, as a shallow embedding.

    Conventions of the embedding.
    - A JavaScript string is a [string]: the sequence of its code units, each
      read as an [ascii] (code units 0..255, i.e. Basic Latin and Latin-1).
      On that range [String.prototype.toLowerCase], [includes], [trim] and
      [replace] act exactly as the functions below.
    - A time value (what [Date.prototype.getTime] returns) is a [Z] number of
      milliseconds.
    - Values that come from outside the controller (the body of the remote
      reply) are trees of type [JS].
    - Code that may throw returns a [completion]. *)

From Stdlib Require Import ZArith NArith List String Ascii Bool Lia Arith.
From Stdlib Require Import DecimalString.
Import ListNotations.
Open Scope string_scope.
Set Warnings "-register-all".

(** ** Strings *)

Module Str.

(** Code unit of a character. *)
Definition code (c : ascii) : N := N_of_ascii c.

(** [toLowerCase] on one code unit below 256: A-Z, and the Latin-1 capitals
    U+00C0..U+00DE except the multiplication sign U+00D7, move up by 32. *)
Definition lowerChar (c : ascii) : ascii :=
  let n := code c in
  if ((65 <=? n) && (n <=? 90))%N then ascii_of_N (n + 32)
  else if ((192 <=? n) && (n <=? 222) && negb (n =? 215))%N then ascii_of_N (n + 32)
  else c.

Fixpoint toLowerCase (s : string) : string :=
  match s with
  | EmptyString => EmptyString
  | String c r => String (lowerChar c) (toLowerCase r)
  end.

(** [startsWith s p]: [p] is a prefix of [s]. *)
Fixpoint startsWith (s p : string) : bool :=
  match p, s with
  | EmptyString, _ => true
  | String _ _, EmptyString => false
  | String a p', String b s' => Ascii.eqb a b && startsWith s' p'
  end.

(** [s.includes(k)]: [k] occurs in [s] as a contiguous run of code units. *)
Fixpoint includes (s k : string) : bool :=
  startsWith s k ||
  match s with
  | EmptyString => false
  | String _ r => includes r k
  end.

(** What follows the prefix [p] in [s], when [s] starts with [p]. *)
Fixpoint stripPrefix (s p : string) {struct p} : option string :=
  match p with
  | EmptyString => Some s
  | String a p' =>
      match s with
      | EmptyString => None
      | String b s' => if Ascii.eqb a b then stripPrefix s' p' else None
      end
  end.

(** The split of [s] around the first occurrence of [k] (at [s.indexOf(k)]):
    the text before it and the text after it. *)
Fixpoint splitFirst (s k : string) : option (string * string) :=
  match stripPrefix s k with
  | Some post => Some (EmptyString, post)
  | None =>
      match s with
      | EmptyString => None
      | String c r =>
          match splitFirst r k with
          | Some (pre, post) => Some (String c pre, post)
          | None => None
          end
      end
  end.

(** [GetSubstitution] for a string pattern (no captures): in the replacement
    text, [$$] stands for a dollar sign, [$&] for the matched text, [$`] for
    the text before the match and [$'] for the text after it; every other
    character, and a dollar sign followed by anything else, stands for itself. *)
Fixpoint getSubstitution (matched pre post repl : string) : string :=
  match repl with
  | EmptyString => EmptyString
  | String c r =>
      if Ascii.eqb c "$" then
        match r with
        | String d r' =>
            if Ascii.eqb d "$" then String "$" (getSubstitution matched pre post r')
            else if Ascii.eqb d "&" then matched ++ getSubstitution matched pre post r'
            else if Ascii.eqb d "`" then pre ++ getSubstitution matched pre post r'
            else if Ascii.eqb d "'" then post ++ getSubstitution matched pre post r'
            else String c (getSubstitution matched pre post r)
        | EmptyString => String c EmptyString
        end
      else String c (getSubstitution matched pre post r)
  end.

(** [s.replace(pat, repl)] with a string pattern: only the first occurrence
    of [pat] is replaced, by the substitution of [repl]. *)
Definition replace (s pat repl : string) : string :=
  match splitFirst s pat with
  | Some (pre, post) => pre ++ getSubstitution pat pre post repl ++ post
  | None => s
  end.

(** White space and line terminators below 256: TAB, LF, VT, FF, CR, SPACE
    and NO-BREAK SPACE. *)
Definition isSpace (c : ascii) : bool :=
  let n := code c in
  ((9 <=? n) && (n <=? 13) || (n =? 32) || (n =? 160))%N.

Fixpoint trimStart (s : string) : string :=
  match s with
  | EmptyString => EmptyString
  | String c r => if isSpace c then trimStart r else s
  end.

(** Removes the trailing white space of [s]. *)
Fixpoint trimEnd (s : string) : string :=
  match s with
  | EmptyString => EmptyString
  | String c r =>
      match trimEnd r with
      | EmptyString => if isSpace c then EmptyString else String c EmptyString
      | r' => String c r'
      end
  end.

Definition trim (s : string) : string := trimEnd (trimStart s).

(** A string is truthy when it is not empty. *)
Definition nonEmpty (s : string) : bool :=
  match s with EmptyString => false | _ => true end.

End Str.

(** ** Values and completions *)

(** A number as [JSON.parse] can build one: a finite double, given by a
    mantissa and a binary exponent (the value is mantissa x 2^exponent, zero
    when the mantissa is 0), negative zero, or an infinity, which is what a
    literal too large for a double, such as [1e400], parses to. *)
Inductive Double : Type :=
| Finite (mantissa exponent : Z)
| NegZero
| Infinite (negative : bool).

(** A JavaScript value as far as the controller is handed one from outside:
    what [JSON.parse] can build. An object is the list of its own
    properties in the order they are enumerated. [undefined], the value of a
    property that is not there, is [None] of [option JS]. *)
Inductive JS : Type :=
| Null
| Bool (b : bool)
| Number (n : Double)
| Str (s : string)
| Arr (items : list JS)
| Obj (members : list (string * JS)).

(** The integer [z] as a number. *)
Definition Num (z : Z) : JS := Number (Finite z 0).

(** [n === 0]: true of both zeros. *)
Definition isZero (n : Double) : bool :=
  match n with
  | Finite mantissa _ => (mantissa =? 0)%Z
  | NegZero => true
  | Infinite _ => false
  end.

Inductive Error : Type :=
| TypeError
| SyntaxError
| NetworkError
| StorageError.

(** Result of running code that may throw. *)
Inductive completion (A : Type) : Type :=
| Normal (a : A)
| Throw (e : Error).
Arguments Normal {A} a.
Arguments Throw {A} e.

(** ToBoolean. *)
Definition truthy (v : option JS) : bool :=
  match v with
  | None | Some Null => false
  | Some (Bool b) => b
  | Some (Number n) => negb (isZero n)
  | Some (Str s) => Str.nonEmpty s
  | Some (Arr _) | Some (Obj _) => true
  end.

(** Member [k] of a parsed object; a name given twice keeps its last value. *)
Fixpoint member (k : string) (ms : list (string * JS)) : option JS :=
  match ms with
  | [] => None
  | (k', v) :: r =>
      match member k r with
      | Some found => Some found
      | None => if String.eqb k' k then Some v else None
      end
  end.

(** [data.k] for a name [k] that no primitive, array or prototype defines
    (here: [message], [response]): reading it off [null] throws a TypeError,
    off any other non-object gives [undefined]. *)
Definition getProp (data : JS) (k : string) : completion (option JS) :=
  match data with
  | Null => Throw TypeError
  | Obj ms => Normal (member k ms)
  | _ => Normal None
  end.

(** ** Objects with string values (the [responses] map) *)

Module Object.

(** The map as the configuration defines it: the pairs in the order they are
    written. *)
Definition defs := list (string * string).

Definition isDigit (c : ascii) : bool :=
  ((48 <=? Str.code c) && (Str.code c <=? 57))%N.

(** Decimal value of a string of digits. *)
Fixpoint digitsValue (acc : N) (s : string) : option N :=
  match s with
  | EmptyString => Some acc
  | String c r =>
      if isDigit c then digitsValue (acc * 10 + (Str.code c - 48)) r else None
  end.

(** A property key is an array index when it is the canonical decimal text of
    an integer in 0 .. 2^32 - 2. *)
Definition arrayIndex (k : string) : option N :=
  match k with
  | EmptyString => None
  | String c r =>
      if Ascii.eqb c "0" && Str.nonEmpty r then None
      else match digitsValue 0 k with
           | Some v => if (v <? 4294967295)%N then Some v else None
           | None => None
           end
  end.

(** Defining key [k]: a key already present keeps its place and takes the new
    value, a new key goes last. *)
Fixpoint define (own : defs) (k v : string) : defs :=
  match own with
  | [] => [(k, v)]
  | (k', v') :: r =>
      if String.eqb k' k then (k', v) :: r else (k', v') :: define r k v
  end.

(** Own properties in creation order. A pair written under the key
    [__proto__] defines no property: in an object literal that key sets the
    prototype, and does nothing when its value is a string. *)
Definition own (d : defs) : defs :=
  fold_left (fun o kv => if String.eqb (fst kv) "__proto__" then o
                         else define o (fst kv) (snd kv)) d [].

Fixpoint insertByIndex (e : N * (string * string)) (l : list (N * (string * string)))
  : list (N * (string * string)) :=
  match l with
  | [] => [e]
  | x :: r => if (fst e <? fst x)%N then e :: l else x :: insertByIndex e r
  end.

Definition sortByIndex (l : list (N * (string * string))) : list (N * (string * string)) :=
  fold_right insertByIndex [] l.

Definition indexed (o : defs) : list (N * (string * string)) :=
  flat_map (fun kv => match arrayIndex (fst kv) with
                      | Some n => [(n, kv)]
                      | None => []
                      end) o.

Definition named (o : defs) : defs :=
  filter (fun kv => match arrayIndex (fst kv) with Some _ => false | None => true end) o.

(** [Object.entries]: the array-index keys in ascending numeric order, then
    the other keys in creation order. *)
Definition entries (d : defs) : defs :=
  (map snd (sortByIndex (indexed (own d))) ++ named (own d))%list.

(** [o.k]: the value of own property [k], if any. *)
Fixpoint get (o : defs) (k : string) : option string :=
  match o with
  | [] => None
  | (k', v) :: r => if String.eqb k' k then Some v else get r k
  end.

End Object.

(** ** Configuration *)

Definition dquote : string := String (ascii_of_N 34) EmptyString.

Record Config : Type := mkConfig {
  botName : string;
  welcomeMessage : string;
  apiEndpoint : option string;          (* [None] is [null] *)
  responses : Object.defs;
  typingDelay : Z;
  messageDelay : Z;
  autoOpen : bool;
  theme : string
}.

(** Caller options: any subset of the configuration's fields. *)
Record Options : Type := mkOptions {
  o_botName : option string;
  o_welcomeMessage : option string;
  o_apiEndpoint : option (option string);
  o_responses : option Object.defs;
  o_typingDelay : option Z;
  o_messageDelay : option Z;
  o_autoOpen : option bool;
  o_theme : option string
}.

Definition noOptions : Options := mkOptions None None None None None None None None.

Definition defaultResponses : Object.defs :=
  [ ("hello", "Hello there! How can I assist you today?");
    ("hi", "Hi! What can I help you with?");
    ("help", "I'm here to help! You can ask me questions and I'll do my best to assist you.");
    ("default", "I understand you're saying " ++ dquote ++ "{message}" ++ dquote
                ++ ". How can I help you with that?") ].

Definition defaultConfig : Config :=
  {| botName := "AI Assistant";
     welcomeMessage := "Hello! How can I help you today?";
     apiEndpoint := None;
     responses := defaultResponses;
     typingDelay := 1000;
     messageDelay := 500;
     autoOpen := false;
     theme := "default" |}.

Definition override {A : Type} (base : A) (o : option A) : A :=
  match o with Some a => a | None => base end.

(** [{ ...c, ...o }]: a field the caller gives replaces the whole field. *)
Definition mergeConfig (c : Config) (o : Options) : Config :=
  {| botName := override (botName c) (o_botName o);
     welcomeMessage := override (welcomeMessage c) (o_welcomeMessage o);
     apiEndpoint := override (apiEndpoint c) (o_apiEndpoint o);
     responses := override (responses c) (o_responses o);
     typingDelay := override (typingDelay c) (o_typingDelay o);
     messageDelay := override (messageDelay c) (o_messageDelay o);
     autoOpen := override (autoOpen c) (o_autoOpen o);
     theme := override (theme c) (o_theme o) |}.

(** ** Messages *)

(** A timestamp is a [Date] when [addMessage] makes it and the ISO text of
    that date once it has been through [JSON.stringify]; both carry the time
    value in milliseconds. *)
Inductive Stamp : Type :=
| DateObj (t : Z)
| IsoString (t : Z).

Definition timeValue (s : Stamp) : Z :=
  match s with DateObj t | IsoString t => t end.

Record Message : Type := mkMessage {
  sender : string;
  content : JS;
  timestamp : Stamp;
  id : string
}.

(** ** Response resolution *)

(** What the remote call does when it is made. *)
Inductive Body : Type :=
| BodyUnparseable            (* [response.json()] rejects *)
| BodyJSON (data : JS).

Inductive FetchOutcome : Type :=
| FetchRejected              (* network error: [fetch] rejects *)
| FetchResponse (ok : bool) (body : Body).

(** What the controller does to the world outside its own state. *)
Inductive Effect : Type :=
| ConsoleLog (event : string) (payload : option string)
| ConsoleWarn (what : string)
| ConsoleError (what : string)
| FetchPost (endpoint : string) (message : string) (history : list Message)
| ResolverCall (message : string).

(** [arr.slice(-n)]: the last [n] items, all of them when there are fewer. *)
Definition sliceLast {A : Type} (n : nat) (l : list A) : list A :=
  skipn (List.length l - n) l.

(** The loop of [getBotResponse] over [Object.entries(responses)]. *)
Fixpoint scanEntries (entries : Object.defs) (lowerMessage : string) : option string :=
  match entries with
  | [] => None
  | (key, response) :: rest =>
      if negb (String.eqb key "default") && Str.includes lowerMessage key
      then Some response
      else scanEntries rest lowerMessage
  end.

(** The predefined responses: the part of [getBotResponse] after the remote
    branch. With no [default] entry, [responses.default.replace] is a call on
    [undefined]. *)
Definition localPolicy (cfg : Config) (message : string) : completion JS :=
  let lowerMessage := Str.toLowerCase message in
  match scanEntries (Object.entries (responses cfg)) lowerMessage with
  | Some response => Normal (Str response)
  | None =>
      match Object.get (Object.own (responses cfg)) "default" with
      | Some template => Normal (Str (Str.replace template "{message}" message))
      | None => Throw TypeError
      end
  end.

Definition sorryText : string := "Sorry, I didn't understand that.".

(** [a || b] where [b] is a value. *)
Definition orElse (a : option JS) (b : JS) : JS :=
  match a with
  | Some v => if truthy a then v else b
  | None => b
  end.

(** [data.response || 'Sorry, ...']. *)
Definition pickResponse (data : JS) : completion JS :=
  match getProp data "response" with
  | Throw e => Throw e
  | Normal r => Normal (orElse r (Str sorryText))
  end.

(** [data.message || data.response || 'Sorry, ...']. *)
Definition pickReply (data : JS) : completion JS :=
  match getProp data "message" with
  | Throw e => Throw e
  | Normal (Some v) => if truthy (Some v) then Normal v else pickResponse data
  | Normal None => pickResponse data
  end.

Definition endpointSet (cfg : Config) : option string :=
  match apiEndpoint cfg with
  | Some url => if Str.nonEmpty url then Some url else None
  | None => None
  end.

Definition warnApi : Effect :=
  ConsoleWarn "API request failed, falling back to predefined responses:".

(** [getBotResponse]: the effects it has and what it returns or throws.
    [remote] is what the endpoint does if it is called. *)
Definition getBotResponse (cfg : Config) (history : list Message)
    (remote : FetchOutcome) (message : string) : list Effect * completion JS :=
  match endpointSet cfg with
  | Some url =>
      let request := FetchPost url message (sliceLast 10 history) in
      match remote with
      | FetchRejected => ([request; warnApi], localPolicy cfg message)
      | FetchResponse false _ => ([request], localPolicy cfg message)
      | FetchResponse true BodyUnparseable => ([request; warnApi], localPolicy cfg message)
      | FetchResponse true (BodyJSON data) =>
          match pickReply data with
          | Normal v => ([request], Normal v)
          | Throw _ => ([request; warnApi], localPolicy cfg message)
          end
      end
  | None => ([], localPolicy cfg message)
  end.

(** ** The persistence store *)

(** The text held under the key [reusable_chatbot_history], by what the code
    can see of it.
    - [EmptyText]: the empty string (falsy).
    - [Unparseable]: [JSON.parse] throws.
    - [ParsedNull]: [JSON.parse] gives [null].
    - [Parsed time messages]: it gives any other value [v]; [time] is the
      time value of [new Date(v.timestamp)], [None] for an invalid date;
      [messages] is [v.messages], [None] when that is falsy.
    These are the snapshots whose [messages], when truthy, is an array of
    message records, as [saveMessageHistory] writes it; the instance
    [Chatbot] lives over a store of such snapshots. A snapshot of any shape is
    a [RawStored] below. *)
Inductive Stored : Type :=
| EmptyText
| Unparseable
| ParsedNull
| Parsed (time : option Z) (messages : option (list Message)).

(** [localStorage]: the item under the key ([None]: no such key), and whether
    reading and writing it work at all (they throw when storage is disabled
    or full). *)
Record Store : Type := mkStore {
  item : option Stored;
  readable : bool;
  writable : bool
}.

Definition getItem (st : Store) : completion (option Stored) :=
  if readable st then Normal (item st) else Throw StorageError.

Definition setItem (st : Store) (v : Stored) : completion Store :=
  if writable st
  then Normal {| item := Some v; readable := readable st; writable := writable st |}
  else Throw StorageError.

(** [JSON.parse(JSON.stringify(v))] for a value [v] that [JSON.parse] built:
    an infinity is written as [null] and negative zero as [0]; every other
    value comes back as it was. *)
Fixpoint jsonValue (v : JS) : JS :=
  match v with
  | Number (Infinite _) => Null
  | Number NegZero => Number (Finite 0 0)
  | Arr items => Arr (map jsonValue items)
  | Obj members => Obj (map (fun kv => (fst kv, jsonValue (snd kv))) members)
  | other => other
  end.

(** [JSON.stringify] of a message followed by [JSON.parse]: a [Date] comes
    back as its ISO text and the content as [jsonValue] leaves it. *)
Definition throughJSON (m : Message) : Message :=
  {| sender := sender m;
     content := jsonValue (content m);
     timestamp := IsoString (timeValue (timestamp m));
     id := id m |}.

(** ** The controller *)

Inductive Timer : Type :=
| TimerOpenChat                    (* [init], autoOpen *)
| TimerFocus                       (* [openChat]: focus and scroll *)
| TimerScroll                      (* [scrollToBottom] *)
| TimerRefreshReset                (* [refreshChat]: button back to 0deg *)
| TimerAddBot (reply : JS).        (* [sendMessage]: the delayed bot message *)

(** The instance, the elements it binds (as far as it writes them), the
    store, the timers it has set and not yet run, and its effects so far. *)
Record Chatbot : Type := mkChatbot {
  config : Config;
  isOpen : bool;
  isTyping : bool;
  messageHistory : list Message;
  inputValue : string;             (* elements.input.value *)
  sendDisabled : bool;             (* elements.sendBtn.disabled *)
  sendOpacity : string;            (* elements.sendBtn.style.opacity *)
  containerShown : bool;           (* class show on elements.container *)
  toggleActive : bool;             (* class active on elements.toggle *)
  typingShown : bool;              (* class show on elements.typingIndicator *)
  rendered : list Message;         (* children of elements.messages *)
  refreshTransform : string;       (* elements.refreshBtn.style.transform *)
  store : Store;
  timers : list (Z * Timer);
  trace : list Effect
}.

Definition setHistory (h : list Message) (s : Chatbot) : Chatbot :=
  mkChatbot (config s) (isOpen s) (isTyping s) h (inputValue s) (sendDisabled s)
    (sendOpacity s) (containerShown s) (toggleActive s) (typingShown s) (rendered s)
    (refreshTransform s) (store s) (timers s) (trace s).

Definition setRendered (r : list Message) (s : Chatbot) : Chatbot :=
  mkChatbot (config s) (isOpen s) (isTyping s) (messageHistory s) (inputValue s)
    (sendDisabled s) (sendOpacity s) (containerShown s) (toggleActive s) (typingShown s) r
    (refreshTransform s) (store s) (timers s) (trace s).

Definition setStore (st : Store) (s : Chatbot) : Chatbot :=
  mkChatbot (config s) (isOpen s) (isTyping s) (messageHistory s) (inputValue s)
    (sendDisabled s) (sendOpacity s) (containerShown s) (toggleActive s) (typingShown s)
    (rendered s) (refreshTransform s) st (timers s) (trace s).

Definition setTimeout (t : Timer) (delay : Z) (s : Chatbot) : Chatbot :=
  mkChatbot (config s) (isOpen s) (isTyping s) (messageHistory s) (inputValue s)
    (sendDisabled s) (sendOpacity s) (containerShown s) (toggleActive s) (typingShown s)
    (rendered s) (refreshTransform s) (store s) (timers s ++ [(delay, t)]) (trace s).

Definition emit (es : list Effect) (s : Chatbot) : Chatbot :=
  mkChatbot (config s) (isOpen s) (isTyping s) (messageHistory s) (inputValue s)
    (sendDisabled s) (sendOpacity s) (containerShown s) (toggleActive s) (typingShown s)
    (rendered s) (refreshTransform s) (store s) (timers s) (trace s ++ es).

Definition setOpen (b : bool) (s : Chatbot) : Chatbot :=
  mkChatbot (config s) b (isTyping s) (messageHistory s) (inputValue s)
    (sendDisabled s) (sendOpacity s) b b (typingShown s)
    (rendered s) (refreshTransform s) (store s) (timers s) (trace s).

Definition setTyping (b : bool) (s : Chatbot) : Chatbot :=
  mkChatbot (config s) (isOpen s) b (messageHistory s) (inputValue s)
    (sendDisabled s) (sendOpacity s) (containerShown s) (toggleActive s) b
    (rendered s) (refreshTransform s) (store s) (timers s) (trace s).

Definition setInput (v : string) (s : Chatbot) : Chatbot :=
  mkChatbot (config s) (isOpen s) (isTyping s) (messageHistory s) v
    (sendDisabled s) (sendOpacity s) (containerShown s) (toggleActive s) (typingShown s)
    (rendered s) (refreshTransform s) (store s) (timers s) (trace s).

Definition setSend (disabled : bool) (opacity : string) (s : Chatbot) : Chatbot :=
  mkChatbot (config s) (isOpen s) (isTyping s) (messageHistory s) (inputValue s)
    disabled opacity (containerShown s) (toggleActive s) (typingShown s)
    (rendered s) (refreshTransform s) (store s) (timers s) (trace s).

Definition setRefreshTransform (v : string) (s : Chatbot) : Chatbot :=
  mkChatbot (config s) (isOpen s) (isTyping s) (messageHistory s) (inputValue s)
    (sendDisabled s) (sendOpacity s) (containerShown s) (toggleActive s) (typingShown s)
    (rendered s) v (store s) (timers s) (trace s).

Definition setConfig (c : Config) (s : Chatbot) : Chatbot :=
  mkChatbot c (isOpen s) (isTyping s) (messageHistory s) (inputValue s)
    (sendDisabled s) (sendOpacity s) (containerShown s) (toggleActive s) (typingShown s)
    (rendered s) (refreshTransform s) (store s) (timers s) (trace s).

(** One task of the event loop reads the clock as [now] and draws the random
    part of a message id as [rnd]. *)

Definition scrollToBottom (s : Chatbot) : Chatbot := setTimeout TimerScroll 100 s.

Definition trackEvent (eventName : string) (data : option string) (s : Chatbot) : Chatbot :=
  emit [ConsoleLog eventName data] s.

Definition generateMessageId (now : Z) (rnd : string) : string :=
  "msg_" ++ NilZero.string_of_int (Z.to_int now) ++ "_" ++ rnd.

Definition snapshotOf (now : Z) (history : list Message) : Stored :=
  Parsed (Some now) (Some (map throughJSON (sliceLast 50 history))).

Definition saveMessageHistory (now : Z) (s : Chatbot) : Chatbot :=
  match setItem (store s) (snapshotOf now (messageHistory s)) with
  | Normal st => setStore st s
  | Throw _ => emit [ConsoleWarn "Could not save message history:"] s
  end.

Definition updateUnreadCount (s : Chatbot) : Chatbot := s.

Definition addMessage (now : Z) (rnd : string) (sender : string) (content : JS)
    (timestamp : option Stamp) (s : Chatbot) : Chatbot :=
  let messageData :=
    {| sender := sender;
       content := content;
       timestamp := match timestamp with Some t => t | None => DateObj now end;
       id := generateMessageId now rnd |} in
  let s1 := setHistory (messageHistory s ++ [messageData]) s in
  let s2 := saveMessageHistory now s1 in
  let s3 := setRendered (rendered s2 ++ [messageData]) s2 in
  let s4 := scrollToBottom s3 in
  if negb (isOpen s4) then updateUnreadCount s4 else s4.

Definition renderMessageHistory (s : Chatbot) : Chatbot :=
  scrollToBottom (setRendered ([] ++ messageHistory s) s).

Definition sevenDays : Z := 7 * (1000 * 60 * 60 * 24).

Definition warnLoad : Effect := ConsoleWarn "Could not load message history:".

(** [daysDiff < 7]: the difference of the two time values is a whole number of
    milliseconds, and its quotient by 86400000 is below 7 exactly when the
    difference is below 7 * 86400000. An invalid date makes the comparison
    false. *)
Definition loadMessageHistory (now : Z) (s : Chatbot) : Chatbot :=
  match getItem (store s) with
  | Throw _ => emit [warnLoad] s
  | Normal None => s
  | Normal (Some EmptyText) => s
  | Normal (Some Unparseable) => emit [warnLoad] s
  | Normal (Some ParsedNull) => emit [warnLoad] s
  | Normal (Some (Parsed time messages)) =>
      match time, messages with
      | Some storedDate, Some ms =>
          if (now - storedDate <? sevenDays)%Z
          then renderMessageHistory (setHistory ms s)
          else s
      | _, _ => s
      end
  end.

Definition openChat (s : Chatbot) : Chatbot :=
  trackEvent "chatbot_opened" None (setTimeout TimerFocus 300 (setOpen true s)).

Definition closeChat (s : Chatbot) : Chatbot :=
  trackEvent "chatbot_closed" None (setOpen false s).

Definition toggleChat (s : Chatbot) : Chatbot :=
  if isOpen s then closeChat s else openChat s.

Definition init (now : Z) (rnd : string) (s : Chatbot) : Chatbot :=
  let s1 := loadMessageHistory now s in
  let s2 := if autoOpen (config s1) then setTimeout TimerOpenChat 1000 s1 else s1 in
  if (List.length (messageHistory s2) =? 0)%nat
  then addMessage now rnd "bot" (Str (welcomeMessage (config s2))) None s2
  else s2.

(** The instance as the constructor leaves it before [init], on a page whose
    message list and input are empty. *)
Definition fresh (options : Options) (st : Store) : Chatbot :=
  {| config := mergeConfig defaultConfig options;
     isOpen := false;
     isTyping := false;
     messageHistory := [];
     inputValue := "";
     sendDisabled := false;
     sendOpacity := "";
     containerShown := false;
     toggleActive := false;
     typingShown := false;
     rendered := [];
     refreshTransform := "";
     store := st;
     timers := [];
     trace := [] |}.

Definition construct (options : Options) (st : Store) (now : Z) (rnd : string) : Chatbot :=
  init now rnd (fresh options st).

Definition updateSendButton (s : Chatbot) : Chatbot :=
  let hasText := Str.nonEmpty (Str.trim (inputValue s)) in
  setSend (negb hasText) (if hasText then "1" else "0.5") s.

Definition showTyping (s : Chatbot) : Chatbot := scrollToBottom (setTyping true s).

Definition hideTyping (s : Chatbot) : Chatbot := setTyping false s.

Definition clearHistory (now : Z) (rnd : string) (s : Chatbot) : Chatbot :=
  let s1 := setHistory [] s in
  let s2 := setRendered [] s1 in
  let s3 := saveMessageHistory now s2 in
  addMessage now rnd "bot" (Str (welcomeMessage (config s3))) None s3.

Definition refreshChat (now : Z) (rnd : string) (s : Chatbot) : Chatbot :=
  let s1 := clearHistory now rnd s in
  let s2 := setRefreshTransform "rotate(360deg)" s1 in
  let s3 := setTimeout TimerRefreshReset 500 s2 in
  trackEvent "chatbot_refreshed" None s3.

Definition apologyText : string :=
  "Sorry, I'm having trouble responding right now. Please try again.".

(** [sendMessage], run up to the point where the timer of the reply is set and
    the event is tracked; [remote] is what the endpoint does if it is called.
    Tasks that the host may run while the remote call is pending are not
    interleaved here. *)
Definition sendMessage (now : Z) (rnd : string) (remote : FetchOutcome) (s : Chatbot)
  : Chatbot :=
  let message := Str.trim (inputValue s) in
  if negb (Str.nonEmpty message) then s
  else
    let s1 := updateSendButton (setInput "" s) in
    let s2 := addMessage now rnd "user" (Str message) None s1 in
    let s3 := showTyping s2 in
    let '(effects, result) := getBotResponse (config s3) (messageHistory s3) remote message in
    let s4 := emit (ResolverCall message :: effects) s3 in
    let s5 :=
      match result with
      | Normal response =>
          setTimeout (TimerAddBot response) (messageDelay (config s4)) (hideTyping s4)
      | Throw _ =>
          setTimeout (TimerAddBot (Str apologyText)) (messageDelay (config s4))
            (hideTyping (emit [ConsoleError "Error getting bot response:"] s4))
      end in
    trackEvent "message_sent" (Some message) s5.

(** What a timer does when it runs. *)
Definition runTimer (now : Z) (rnd : string) (t : Timer) (s : Chatbot) : Chatbot :=
  match t with
  | TimerOpenChat => openChat s
  | TimerFocus => scrollToBottom s
  | TimerScroll => s
  | TimerRefreshReset => setRefreshTransform "rotate(0deg)" s
  | TimerAddBot reply => addMessage now rnd "bot" reply None s
  end.

Definition dropTimer (n : nat) (s : Chatbot) : Chatbot :=
  mkChatbot (config s) (isOpen s) (isTyping s) (messageHistory s) (inputValue s)
    (sendDisabled s) (sendOpacity s) (containerShown s) (toggleActive s) (typingShown s)
    (rendered s) (refreshTransform s) (store s)
    (firstn n (timers s) ++ skipn (S n) (timers s)) (trace s).

Definition handleKeyboardShortcuts (key : string) (ctrlOrMeta : bool) (s : Chatbot)
  : Chatbot :=
  let s1 := if String.eqb key "Escape" && isOpen s then closeChat s else s in
  if ctrlOrMeta && String.eqb key "k" then toggleChat s1 else s1.

Definition updateConfig (newConfig : Options) (s : Chatbot) : Chatbot :=
  setConfig (mergeConfig (config s) newConfig) s.

Record Stats : Type := mkStats {
  totalMessages : nat;
  userMessages : nat;
  botMessages : nat;
  firstMessage : option Stamp;
  lastMessage : option Stamp;
  stats_isOpen : bool
}.

Definition getStats (s : Chatbot) : Stats :=
  let users := filter (fun msg => String.eqb (sender msg) "user") (messageHistory s) in
  let bots := filter (fun msg => String.eqb (sender msg) "bot") (messageHistory s) in
  {| totalMessages := List.length (messageHistory s);
     userMessages := List.length users;
     botMessages := List.length bots;
     firstMessage := option_map timestamp (nth_error (messageHistory s) 0);
     lastMessage := option_map timestamp
                      (nth_error (messageHistory s) (List.length (messageHistory s) - 1));
     stats_isOpen := isOpen s |}.

(** ** Initialization over a snapshot of any shape *)










(** ** Runs of the controller *)

(** One task: a user action, a timer that comes due, a call of the public
    interface, or a reload of the page (a new instance over the same store). *)
Inductive step : Chatbot -> Chatbot -> Prop :=
| step_input v s :
    step s (updateSendButton (setInput v s))
| step_send now rnd remote s :
    step s (sendMessage now rnd remote s)
| step_timer now rnd n delay t s :
    nth_error (timers s) n = Some (delay, t) ->
    step s (runTimer now rnd t (dropTimer n s))
| step_refresh now rnd s :
    step s (refreshChat now rnd s)
| step_clear now rnd s :
    step s (clearHistory now rnd s)
| step_toggle s :
    step s (toggleChat s)
| step_open s :
    step s (openChat s)
| step_close s :
    step s (closeChat s)
| step_key key ctrlOrMeta s :
    step s (handleKeyboardShortcuts key ctrlOrMeta s)
| step_config newConfig s :
    step s (updateConfig newConfig s)
| step_reload options now rnd s :
    step s (construct options (store s) now rnd).

(** States the controller gets to from a first visit (nothing stored yet). *)
Inductive reachable : Chatbot -> Prop :=
| reach_first options st now rnd :
    item st = None ->
    reachable (construct options st now rnd)
| reach_step s s' :
    reachable s -> step s s' -> reachable s'.

(** ** The statements of the specification, in its own words *)

Module Spec.

(** [key] is a case-insensitive substring of [text]. *)
Definition substringCI (text key : string) : bool :=
  Str.includes (Str.toLowerCase text) (Str.toLowerCase key).

(** The reply of the first entry, in the order of definition and leaving out
    the entry keyed [default], whose key is a case-insensitive substring of
    the text. *)
Fixpoint firstMatch (d : Object.defs) (text : string) : option string :=
  match d with
  | [] => None
  | (key, reply) :: rest =>
      if negb (String.eqb key "default") && substringCI text key
      then Some reply
      else firstMatch rest text
  end.

(** [template] with its first [placeholder] replaced by [text] as it is. *)
Definition fill (template placeholder text : string) : string :=
  match Str.splitFirst template placeholder with
  | Some (pre, post) => pre ++ text ++ post
  | None => template
  end.

(** The sender tags of a message. *)
Definition senderOk (m : Message) : Prop := sender m = "user" \/ sender m = "bot".

(** There is no snapshot to load at time [now]: none stored, a malformed one,
    or one that is seven days old or older. *)
Inductive noSnapshot (now : Z) (st : Store) : Prop :=
| snapshot_absent : readable st = true -> item st = None -> noSnapshot now st
| snapshot_unreadable : readable st = false -> noSnapshot now st
| snapshot_empty_text : item st = Some EmptyText -> noSnapshot now st
| snapshot_unparseable : item st = Some Unparseable -> noSnapshot now st
| snapshot_null : item st = Some ParsedNull -> noSnapshot now st
| snapshot_no_date ms : item st = Some (Parsed None ms) -> noSnapshot now st
| snapshot_no_messages t : item st = Some (Parsed t None) -> noSnapshot now st
| snapshot_old t ms :
    item st = Some (Parsed (Some t) ms) -> (sevenDays <= now - t)%Z -> noSnapshot now st.


(** The welcome message made at time [now]. *)
Definition welcome (cfg : Config) (now : Z) (rnd : string) : Message :=
  {| sender := "bot";
     content := Str (welcomeMessage cfg);
     timestamp := DateObj now;
     id := generateMessageId now rnd |}.

(** Every key is in lower case, none is an array index or [__proto__] and
    none is defined twice. *)
Definition plainKeys (d : Object.defs) : Prop :=
  NoDup (map fst d) /\
  Forall (fun kv => Str.toLowerCase (fst kv) = fst kv /\
                    Object.arrayIndex (fst kv) = None /\
                    fst kv <> "__proto__") d.

Definition hasDefault (cfg : Config) : Prop :=
  exists template, Object.get (Object.own (responses cfg)) "default" = Some template.

Definition isString (v : JS) : Prop := exists s, v = Str s.

(** Empty or made of white space only. *)
Fixpoint blank (s : string) : bool :=
  match s with
  | EmptyString => true
  | String c r => Str.isSpace c && blank r
  end.

(** The remote call failed: the request was rejected, the status is not a
    success, or the body is not JSON or is [null]. *)
Inductive remoteFailed : FetchOutcome -> Prop :=
| failed_network : remoteFailed FetchRejected
| failed_status body : remoteFailed (FetchResponse false body)
| failed_body : remoteFailed (FetchResponse true BodyUnparseable)
| failed_null : remoteFailed (FetchResponse true (BodyJSON Null)).

(** Field [k] of a parsed body that is not [null]. *)
Definition field (data : JS) (k : string) : option JS :=
  match data with
  | Obj ms => member k ms
  | _ => None
  end.

(** Every reply of the map is a non-empty text, and the default template is
    there and is more than the bare placeholder. *)
Definition repliesNonEmpty (cfg : Config) : Prop :=
  Forall (fun kv => snd kv <> "") (Object.entries (responses cfg)) /\
  exists template,
    Object.get (Object.own (responses cfg)) "default" = Some template /\
    template <> "" /\ template <> "{message}".

(** The messages of the stored snapshot, if there is one to adopt, carry
    the two sender tags. *)
Definition storedOk (st : Store) : Prop :=
  match item st with
  | Some (Parsed _ (Some ms)) => Forall senderOk ms
  | _ => True
  end.

(** The history in memory and the stored snapshot carry the two sender tags. *)
Definition wellTagged (s : Chatbot) : Prop :=
  Forall senderOk (messageHistory s) /\ storedOk (store s).

(** The value comes back from [JSON.stringify] and [JSON.parse] as it was. *)
Definition jsonStable (v : JS) : Prop := jsonValue v = v.

(** The character [c] occurs in [s]. *)
Fixpoint hasChar (c : ascii) (s : string) : bool :=
  match s with
  | EmptyString => false
  | String d r => Ascii.eqb d c || hasChar c r
  end.

(** The stored snapshot, when it has messages, is one that
    [saveMessageHistory] writes: serialized messages, 50 at most. *)
Definition selfWritten (st : Store) : Prop :=
  match item st with
  | Some (Parsed _ (Some ms)) => ms = map throughJSON (sliceLast 50 ms)
  | _ => True
  end.

(** The store, when it takes writes, holds the snapshot of the history in
    memory, written at some time. *)
Definition inSync (s : Chatbot) : Prop :=
  writable (store s) = true ->
  exists t, item (store s) = Some (snapshotOf t (messageHistory s)).

(** The state between two tasks: the rendered list shows the history, the
    history is not empty, and the store is in step with it. *)
Definition settled (s : Chatbot) : Prop :=
  rendered s = messageHistory s /\
  messageHistory s <> [] /\
  inSync s /\
  selfWritten (store s).

(** The effect is a request to the endpoint. *)
Definition isRequest (e : Effect) : bool :=
  match e with
  | FetchPost _ _ _ => true
  | _ => false
  end.

End Spec.

(** ** Configurations used in the examples *)

Definition withResponses (d : Object.defs) : Config :=
  mergeConfig defaultConfig (mkOptions None None None (Some d) None None None None).

Definition withEndpoint (url : string) : Config :=
  mergeConfig defaultConfig (mkOptions None None (Some (Some url)) None None None None None).

Definition withEndpointAndResponses (url : string) (d : Object.defs) : Config :=
  mergeConfig defaultConfig (mkOptions None None (Some (Some url)) (Some d) None None None None).

Definition chatUrl : string := "https://example.test/chat".

Definition silentResponses : Object.defs :=
  [("hello", ""); ("default", "Thanks for your message!")].

(** The instance with no history, nothing rendered and nothing stored. *)
Definition blankSlate (s : Chatbot) : Chatbot :=
  setStore (mkStore None (readable (store s)) (writable (store s)))
    (setRendered [] (setHistory [] s)).

Definition greetingOnly : Object.defs := [("hello", "Hi!")].

Definition onlyResponses (d : Object.defs) : Options :=
  mkOptions None None None (Some d) None None None None.

(** The two-entry map of the scenarios of the specification. *)
Definition scenarioResponses : Object.defs :=
  [("hello", "Hi!"); ("default", "Thanks for your message!")].

Definition casedResponses : Object.defs :=
  [("Hello", "Hi!"); ("default", "Thanks for your message!")].

(** A conversation whose bot reply is the number the endpoint sent as
    [1e400]: the instance is built with the endpoint configured, [hi] is
    sent, the endpoint answers with that number under [message], and the
    timer of the reply runs. *)
Definition overflowBody : FetchOutcome :=
  FetchResponse true (BodyJSON (Obj [("message", Number (Infinite false))])).

Definition overflowSent : Chatbot :=
  sendMessage 2000 "r" overflowBody
    (setInput "hi"
       (construct (mkOptions None None (Some (Some "https://example.test/chat")) None
                     None None None None)
          (mkStore None true true) 1000 "a")).

Definition overflowChat : Chatbot :=
  runTimer 3000 "q" (TimerAddBot (Number (Infinite false))) (dropTimer 3 overflowSent).

Definition protoResponses : Object.defs :=
  [("__proto__", "Secret"); ("default", "Thanks for your message!")].

Definition triageResponses : Object.defs :=
  [("bye", "Goodbye!"); ("hello", "Hi!"); ("help", "Here to help.");
   ("default", "Thanks for your message!")].

Definition numberedResponses : Object.defs :=
  [("hello", "Hi!"); ("1", "You chose one."); ("default", "Thanks for your message!")].

(** A history of [n] user messages, numbered by their time. *)
Fixpoint sampleHistory (n : nat) : list Message :=
  match n with
  | O => []
  | S k => (sampleHistory k ++
            [ {| sender := "user"; content := Num (Z.of_nat k);
                 timestamp := DateObj (Z.of_nat k); id := "m" |} ])%list
  end.

(** What the tasks of the controller hand on to each other: the history in
    memory and the store. *)
Definition conversation (s : Chatbot) : list Message * Store :=
  (messageHistory s, store s).

(** The history, what is rendered of it and what is stored of it. *)
Definition view (s : Chatbot) : list Message * list Message * Store :=
  (messageHistory s, rendered s, store s).

Definition defaultTemplate : string :=
  "I understand you're saying " ++ dquote ++ "{message}" ++ dquote
  ++ ". How can I help you with that?".

(** ** The time label of a message *)

(** What [formatTime] returns: a text, or [date.toLocaleDateString()], which
    depends on the locale of the host and is kept as the date it prints. *)
Inductive TimeLabel : Type :=
| LabelText (text : string)
| LocaleDateString (date : Z).

Definition decimal (n : Z) : string := NilZero.string_of_int (Z.to_int n).

(** [formatTime], read at time [now]. [Math.floor] of the quotients is the
    floor division of [Z]: the differences whose label shows a number are
    below seven days, where the quotient of the floating-point division has
    the same floor. *)
Definition formatTime (now : Z) (timestamp : Stamp) : TimeLabel :=
  let date := timeValue timestamp in
  let diffMs := (now - date)%Z in
  let diffMins := (diffMs / 60000)%Z in
  let diffHours := (diffMs / 3600000)%Z in
  let diffDays := (diffMs / 86400000)%Z in
  if (diffMins <? 1)%Z then LabelText "just now"
  else if (diffMins <? 60)%Z then LabelText (decimal diffMins ++ "m ago")
  else if (diffHours <? 24)%Z then LabelText (decimal diffHours ++ "h ago")
  else if (diffDays <? 7)%Z then LabelText (decimal diffDays ++ "d ago")
  else LocaleDateString date.

(** The element [createMessageElement] builds, by the attributes and texts it
    sets. The bubble shows the content through [textContent]; the avatar is
    the brain icon for the sender [bot] and the user icon for any other. *)
Record MessageElement : Type := mkElement {
  className : string;
  dataMessageId : string;
  avatarIsBot : bool;
  bubble : JS;
  timeLabel : TimeLabel
}.

Definition createMessageElement (now : Z) (messageData : Message) : MessageElement :=
  {| className := "message " ++ sender messageData ++ "-message";
     dataMessageId := id messageData;
     avatarIsBot := String.eqb (sender messageData) "bot";
     bubble := content messageData;
     timeLabel := formatTime now (timestamp messageData) |}.

(** * Properties *)

(** ** Strings *)

Lemma startsWith_app (k post : string) : Str.startsWith (k ++ post) k = true.
Proof.
  induction k as [|c k IH]; simpl; [now destruct post|].
  now rewrite Ascii.eqb_refl, IH.
Qed.

Lemma startsWith_split (s k : string) :
  Str.startsWith s k = true -> exists post, s = k ++ post.
Proof.
  revert s; induction k as [|c k IH]; intros s H.
  - now exists s.
  - destruct s as [|b s]; simpl in H; [discriminate|].
    apply andb_true_iff in H as [Hc Hr].
    apply Ascii.eqb_eq in Hc; subst b.
    destruct (IH _ Hr) as [post ->].
    now exists post.
Qed.

Lemma includes_eq (s k : string) :
  Str.includes s k =
  Str.startsWith s k || match s with "" => false | String _ r => Str.includes r k end.
Proof. destruct s; reflexivity. Qed.

(** [includes] is the substring relation. *)
Lemma includes_spec (s k : string) :
  Str.includes s k = true <-> exists pre post, s = pre ++ k ++ post.
Proof.
  split.
  - induction s as [|c s IH]; intros H; rewrite includes_eq in H;
      apply orb_true_iff in H as [H|H]; try discriminate.
    + destruct (startsWith_split _ _ H) as [post E]. now exists "", post.
    + destruct (startsWith_split _ _ H) as [post E]. now exists "", post.
    + destruct (IH H) as (pre & post & ->). now exists (String c pre), post.
  - intros (pre & post & ->).
    induction pre as [|c pre IH].
    + rewrite includes_eq. change ("" ++ k ++ post) with (k ++ post).
      now rewrite startsWith_app.
    + change (String c pre ++ k ++ post) with (String c (pre ++ k ++ post)).
      rewrite includes_eq, IH. apply orb_true_r.
Qed.

(** ** Enumeration of the responses *)

Lemma define_fresh (o : Object.defs) (k v : string) :
  ~ In k (map fst o) -> Object.define o k v = (o ++ [(k, v)])%list.
Proof.
  induction o as [|[k' v'] o IH]; simpl; intros H; [reflexivity|].
  destruct (String.eqb_spec k' k) as [->|_].
  - exfalso. apply H. now left.
  - f_equal. apply IH. intros Hin. apply H. now right.
Qed.

Lemma fold_define_nodup (d acc : Object.defs) :
  NoDup (map fst (acc ++ d)%list) ->
  Forall (fun kv => fst kv <> "__proto__") d ->
  fold_left (fun o kv => if String.eqb (fst kv) "__proto__" then o
                         else Object.define o (fst kv) (snd kv)) d acc
  = (acc ++ d)%list.
Proof.
  revert acc; induction d as [|[k v] d IH]; intros acc H Hp; simpl.
  - now rewrite app_nil_r.
  - inversion Hp as [|? ? Hk Hd]; subst. simpl in Hk.
    apply String.eqb_neq in Hk. rewrite Hk.
    rewrite define_fresh.
    + rewrite IH; [now rewrite <- app_assoc | now rewrite <- app_assoc | exact Hd].
    + rewrite map_app in H. simpl in H.
      apply NoDup_remove_2 in H. intros Hin. apply H.
      apply in_or_app. now left.
Qed.

Lemma own_nodup (d : Object.defs) :
  NoDup (map fst d) -> Forall (fun kv => fst kv <> "__proto__") d -> Object.own d = d.
Proof. intros H Hp. unfold Object.own. now rewrite fold_define_nodup. Qed.

Lemma indexed_plain (o : Object.defs) :
  Forall (fun kv => Object.arrayIndex (fst kv) = None) o -> Object.indexed o = [].
Proof.
  induction 1 as [|kv o Hk _ IH]; [reflexivity|].
  unfold Object.indexed in *. simpl. now rewrite Hk, IH.
Qed.

Lemma named_plain (o : Object.defs) :
  Forall (fun kv => Object.arrayIndex (fst kv) = None) o -> Object.named o = o.
Proof.
  induction 1 as [|kv o Hk _ IH]; [reflexivity|].
  unfold Object.named in *. simpl. now rewrite Hk, IH.
Qed.

(** A map with plain keys is enumerated in the order of its definition. *)
Lemma entries_plain (d : Object.defs) : Spec.plainKeys d -> Object.entries d = d.
Proof.
  intros [Hnd Hall]. unfold Object.entries.
  rewrite own_nodup.
  - assert (Hidx : Forall (fun kv => Object.arrayIndex (fst kv) = None) d).
    { eapply Forall_impl; [|exact Hall]. now intros kv (_ & ? & _). }
    now rewrite indexed_plain, named_plain.
  - exact Hnd.
  - eapply Forall_impl; [|exact Hall]. now intros kv (_ & _ & ?).
Qed.

(** ** The keyword scan *)

(** The scan returns the reply of the first entry that is not [default] and
    whose key, as it is written, occurs in the lowercased text. *)
Lemma scanEntries_first (before after : Object.defs) (key reply lowerMessage : string) :
  Forall (fun kv => fst kv = "default" \/ Str.includes lowerMessage (fst kv) = false) before ->
  key <> "default" ->
  Str.includes lowerMessage key = true ->
  scanEntries (before ++ (key, reply) :: after)%list lowerMessage = Some reply.
Proof.
  intros Hb Hk Hin. induction Hb as [|[k r] before Hkr _ IH]; simpl.
  - apply String.eqb_neq in Hk. now rewrite Hk, Hin.
  - simpl in Hkr. destruct Hkr as [-> | Hno].
    + exact IH.
    + rewrite Hno, andb_false_r. exact IH.
Qed.

Lemma scanEntries_split (entries : Object.defs) (lowerMessage reply : string) :
  scanEntries entries lowerMessage = Some reply ->
  exists before key after,
    entries = (before ++ (key, reply) :: after)%list /\
    key <> "default" /\
    Str.includes lowerMessage key = true /\
    Forall (fun kv => fst kv = "default" \/ Str.includes lowerMessage (fst kv) = false) before.
Proof.
  induction entries as [|[k r] entries IH]; simpl; [discriminate|].
  destruct (negb (k =? "default") && Str.includes lowerMessage k) eqn:E.
  - intros [= ->]. apply andb_true_iff in E as [E1 E2].
    exists [], k, entries. repeat split; auto.
    apply negb_true_iff, String.eqb_neq in E1. exact E1.
  - intros H. destruct (IH H) as (before & key & after & -> & Hk & Hin & Hb).
    exists ((k, r) :: before), key, after. repeat split; auto.
    constructor; [|exact Hb]. simpl.
    apply andb_false_iff in E as [E|E].
    + left. apply negb_false_iff, String.eqb_eq in E. exact E.
    + now right.
Qed.

Lemma scanEntries_none (entries : Object.defs) (lowerMessage : string) :
  scanEntries entries lowerMessage = None <->
  Forall (fun kv => fst kv = "default" \/ Str.includes lowerMessage (fst kv) = false) entries.
Proof.
  induction entries as [|[k r] entries IH]; simpl.
  - split; [constructor | reflexivity].
  - destruct (negb (k =? "default") && Str.includes lowerMessage k) eqn:E.
    + split; [discriminate|]. intros H. inversion H as [|? ? [Hd|Hn] _]; subst; simpl in *.
      * subst k. discriminate.
      * rewrite Hn, andb_false_r in E. discriminate.
    + rewrite IH. split.
      * intros H. constructor; [|exact H]. simpl.
        apply andb_false_iff in E as [E|E].
        -- left. apply negb_false_iff, String.eqb_eq in E. exact E.
        -- now right.
      * intros H. now inversion H.
Qed.

(** With keys in lower case the scan is the case-insensitive first match. *)
Lemma scanEntries_firstMatch (d : Object.defs) (message : string) :
  Forall (fun kv => Str.toLowerCase (fst kv) = fst kv) d ->
  scanEntries d (Str.toLowerCase message) = Spec.firstMatch d message.
Proof.
  induction 1 as [|[k r] d Hk _ IH]; [reflexivity|].
  simpl in *. unfold Spec.substringCI. now rewrite Hk, IH.
Qed.

(** Without an endpoint the resolver is the local policy and has no effect. *)
Lemma getBotResponse_local (cfg : Config) (history : list Message)
    (remote : FetchOutcome) (message : string) :
  endpointSet cfg = None ->
  getBotResponse cfg history remote message = ([], localPolicy cfg message).
Proof. intros H. unfold getBotResponse. now rewrite H. Qed.

(** ** C1: the first matching key wins *)

(** C1, as stated, fails on the code. A key written with a capital letter is a
    case-insensitive substring of the text, but the code looks for the key as
    written in the lowercased text and never finds it. A key that is an array
    index is enumerated before the keys defined ahead of it. A pair written
    under [__proto__] is no entry of the object at all. *)
Lemma C1_counterexample :
  (Spec.substringCI "hello there" "Hello" = true /\
   Spec.firstMatch casedResponses "hello there" = Some "Hi!" /\
   localPolicy (withResponses casedResponses) "hello there"
     = Normal (Str "Thanks for your message!")) /\
  (Spec.substringCI "hello 1" "hello" = true /\
   Spec.firstMatch numberedResponses "hello 1" = Some "Hi!" /\
   localPolicy (withResponses numberedResponses) "hello 1"
     = Normal (Str "You chose one.")) /\
  (Spec.substringCI "what is __proto__" "__proto__" = true /\
   Spec.firstMatch protoResponses "what is __proto__" = Some "Secret" /\
   localPolicy (withResponses protoResponses) "what is __proto__"
     = Normal (Str "Thanks for your message!")).
Proof. repeat split; reflexivity. Qed.

(** C1 (amended): for a responses map whose keys are in lower case, are
    neither array indices nor [__proto__] and are each defined once, and for
    every text: when some key other than [default] is a case-insensitive
    substring of the text, the local policy returns the reply of the first
    such key in the order of definition, whatever keys match later; with no
    endpoint configured that is what [getBotResponse] returns. *)
Theorem C1_first_plain_key_wins (cfg : Config) (message : string) :
  Spec.plainKeys (responses cfg) ->
  (exists key reply,
      In (key, reply) (responses cfg) /\ key <> "default" /\
      Spec.substringCI message key = true) ->
  exists before key reply after,
    responses cfg = (before ++ (key, reply) :: after)%list /\
    key <> "default" /\
    Spec.substringCI message key = true /\
    Forall (fun kv => fst kv = "default" \/ Spec.substringCI message (fst kv) = false) before /\
    localPolicy cfg message = Normal (Str reply) /\
    (forall history remote,
        endpointSet cfg = None ->
        getBotResponse cfg history remote message = ([], Normal (Str reply))).
Proof.
  intros Hplain (k0 & r0 & Hin0 & Hk0 & Hm0).
  pose proof (entries_plain _ Hplain) as Hent.
  destruct Hplain as [_ Hall].
  assert (Hlow : forall k r, In (k, r) (responses cfg) ->
                 Spec.substringCI message k = Str.includes (Str.toLowerCase message) k).
  { intros k r Hin. rewrite Forall_forall in Hall.
    destruct (Hall _ Hin) as (Hl & _). simpl in Hl.
    unfold Spec.substringCI. now rewrite Hl. }
  destruct (scanEntries (responses cfg) (Str.toLowerCase message)) as [reply|] eqn:Hscan.
  - destruct (scanEntries_split _ _ _ Hscan) as (before & key & after & Hsplit & Hk & Hinc & Hb).
    assert (Hloc : localPolicy cfg message = Normal (Str reply)).
    { unfold localPolicy. now rewrite Hent, Hscan. }
    exists before, key, reply, after. repeat split; auto.
    + rewrite (Hlow key reply); [exact Hinc|].
      rewrite Hsplit. apply in_or_app. right. now left.
    + rewrite Forall_forall in *. intros [k r] Hin. simpl.
      destruct (Hb _ Hin) as [Hd|Hn]; [now left|right].
      rewrite (Hlow k r); [exact Hn|].
      rewrite Hsplit. apply in_or_app. now left.
    + intros history remote Hno. rewrite getBotResponse_local by exact Hno.
      now rewrite Hloc.
  - exfalso. apply scanEntries_none in Hscan. rewrite Forall_forall in Hscan.
    destruct (Hscan _ Hin0) as [Hd|Hn]; simpl in *; [contradiction|].
    rewrite (Hlow _ _ Hin0) in Hm0. congruence.
Qed.

(** With [bye], [hello] and [help] configured in that order, the text
    [Hello, I need help] passes over [bye], which does not occur, and gets
    the reply of [hello], though [help] occurs too. *)
Lemma C1_first_plain_key_wins_witness :
  localPolicy (withResponses triageResponses) "Hello, I need help" = Normal (Str "Hi!").
Proof.
  destruct (C1_first_plain_key_wins (withResponses triageResponses) "Hello, I need help")
    as (before & key & reply & after & Hsplit & Hkey & Hmatch & Hbefore & Hlocal & _).
  - split.
    + simpl. repeat constructor; simpl; intuition discriminate.
    + repeat (constructor; [repeat split; try reflexivity; discriminate|]). constructor.
  - exists "help", "Here to help.". repeat split.
    + simpl. auto.
    + discriminate.
  - rewrite Hlocal. clear Hlocal.
    change (responses (withResponses triageResponses)) with triageResponses in Hsplit.
    unfold triageResponses in Hsplit.
    destruct before as [|b1 [|b2 [|b3 [|b4 rest]]]]; simpl in Hsplit;
      injection Hsplit as; subst.
    + discriminate Hmatch.
    + reflexivity.
    + inversion Hbefore as [|? ? _ Hb2]; subst.
      inversion Hb2 as [|? ? [Hd|Hn] _]; subst; simpl in *; discriminate.
    + contradiction.
    + destruct rest; discriminate.
Defined.

(** ** C2: the default reply *)

(** A replacement text without a dollar sign is inserted as it is. *)
Lemma getSubstitution_plain (matched pre post repl : string) :
  Spec.hasChar "$" repl = false -> Str.getSubstitution matched pre post repl = repl.
Proof.
  induction repl as [|c r IH]; [reflexivity|].
  intros H. simpl in H. apply orb_false_iff in H as [Hc Hr].
  simpl. rewrite Hc. now rewrite (IH Hr).
Qed.

Lemma replace_plain (template pattern text : string) :
  Spec.hasChar "$" text = false ->
  Str.replace template pattern text = Spec.fill template pattern text.
Proof.
  intros H. unfold Str.replace, Spec.fill.
  destruct (Str.splitFirst template pattern) as [[pre post]|]; [|reflexivity].
  now rewrite getSubstitution_plain.
Qed.

(** When no key matches and the text has no dollar sign, the reply is the
    default template with its first placeholder replaced by the text as it
    was typed. *)
Lemma default_reply_verbatim (cfg : Config) (message template : string) :
  scanEntries (Object.entries (responses cfg)) (Str.toLowerCase message) = None ->
  Object.get (Object.own (responses cfg)) "default" = Some template ->
  Spec.hasChar "$" message = false ->
  localPolicy cfg message = Normal (Str (Spec.fill template "{message}" message)).
Proof.
  intros Hscan Hdef Hplain. unfold localPolicy.
  now rewrite Hscan, Hdef, replace_plain.
Qed.

(** C2 fails on the code at the text [$$]: no key of the default
    configuration matches it, the default template is filled in, but
    [String.prototype.replace] reads [$$] in the replacement as one dollar
    sign, so the reply quotes [$] and not the text as typed. *)
Theorem C2_dollar_text_not_verbatim :
  scanEntries (Object.entries (responses defaultConfig)) (Str.toLowerCase "$$") = None /\
  Object.get (Object.own (responses defaultConfig)) "default" = Some defaultTemplate /\
  (forall history remote,
      getBotResponse defaultConfig history remote "$$"
      = ([], Normal (Str ("I understand you're saying " ++ dquote ++ "$" ++ dquote
                          ++ ". How can I help you with that?")))) /\
  Spec.fill defaultTemplate "{message}" "$$"
    = "I understand you're saying " ++ dquote ++ "$$" ++ dquote
      ++ ". How can I help you with that?" /\
  localPolicy defaultConfig "$$"
    <> Normal (Str (Spec.fill defaultTemplate "{message}" "$$")).
Proof.
  repeat split; try reflexivity.
  vm_compute. discriminate.
Qed.

(** ** C3: what a save writes *)

Lemma app_same_length {A : Type} (l1 l2 r1 r2 : list A) :
  (l1 ++ r1 = l2 ++ r2)%list -> List.length l1 = List.length l2 -> l1 = l2 /\ r1 = r2.
Proof.
  revert l2; induction l1 as [|a l1 IH]; intros [|b l2] H Hlen; simpl in *;
    try discriminate.
  - now split.
  - injection H as -> H. injection Hlen as Hlen.
    destruct (IH _ H Hlen) as [-> ->]. now split.
Qed.

Lemma sliceLast_suffix {A : Type} (n : nat) (l : list A) :
  exists older, l = (older ++ sliceLast n l)%list.
Proof.
  exists (firstn (List.length l - n) l). unfold sliceLast.
  now rewrite firstn_skipn.
Qed.

Lemma sliceLast_length {A : Type} (n : nat) (l : list A) :
  List.length (sliceLast n l) = Nat.min n (List.length l).
Proof. unfold sliceLast. rewrite length_skipn. lia. Qed.

Lemma sliceLast_all {A : Type} (n : nat) (l : list A) :
  (List.length l <= n)%nat -> sliceLast n l = l.
Proof.
  intros H. unfold sliceLast.
  replace (List.length l - n)%nat with 0%nat by lia. reflexivity.
Qed.

Lemma saveMessageHistory_history (now : Z) (s : Chatbot) :
  messageHistory (saveMessageHistory now s) = messageHistory s.
Proof. unfold saveMessageHistory. now destruct (setItem _ _). Qed.

Lemma saveMessageHistory_item (now : Z) (s : Chatbot) :
  writable (store s) = true ->
  item (store (saveMessageHistory now s)) = Some (snapshotOf now (messageHistory s)).
Proof. intros H. unfold saveMessageHistory, setItem. now rewrite H. Qed.

Lemma saveMessageHistory_writable (now : Z) (s : Chatbot) :
  writable (store (saveMessageHistory now s)) = writable (store s).
Proof.
  unfold saveMessageHistory, setItem.
  destruct (writable (store s)) eqn:E; simpl; [reflexivity | exact E].
Qed.

(** C3: a save leaves the history in memory as it is; the history splits into
    older messages and the most recent ones, at most 50 and exactly 50 when
    there are that many, and the snapshot written (when the store takes the
    write) holds the serialized form of those recent messages, in their
    order, with the time of the save. *)
Theorem C3_save_keeps_last_50 (now : Z) (s : Chatbot) :
  messageHistory (saveMessageHistory now s) = messageHistory s /\
  exists older recent,
    messageHistory s = (older ++ recent)%list /\
    List.length recent = Nat.min 50 (List.length (messageHistory s)) /\
    (writable (store s) = true ->
     item (store (saveMessageHistory now s))
       = Some (Parsed (Some now) (Some (map throughJSON recent)))).
Proof.
  split; [apply saveMessageHistory_history|].
  destruct (sliceLast_suffix 50 (messageHistory s)) as [older Hsplit].
  exists older, (sliceLast 50 (messageHistory s)).
  split; [exact Hsplit|]. split; [apply sliceLast_length|].
  intros Hw. now rewrite saveMessageHistory_item.
Qed.

(** The scenario of the specification: of 60 messages in memory the snapshot
    holds the last 50, the messages numbered 10 to 59. *)
Lemma C3_save_keeps_last_50_witness :
  let s := setHistory (sampleHistory 60) (fresh noOptions (mkStore None true true)) in
  messageHistory (saveMessageHistory 1000 s) = sampleHistory 60 /\
  item (store (saveMessageHistory 1000 s))
    = Some (Parsed (Some 1000%Z) (Some (map throughJSON (skipn 10 (sampleHistory 60))))).
Proof.
  intros s.
  destruct (C3_save_keeps_last_50 1000 s) as (Hmem & older & recent & Hsplit & Hlen & Hitem).
  split; [exact Hmem|].
  rewrite (Hitem eq_refl).
  assert (Hold : List.length older = 10%nat).
  { apply (f_equal (@List.length Message)) in Hsplit.
    rewrite length_app, Hlen in Hsplit.
    change (List.length (messageHistory s)) with 60%nat in Hsplit.
    change (Nat.min 50 60) with 50%nat in Hsplit. lia. }
  change (messageHistory s)
    with (firstn 10 (sampleHistory 60) ++ skipn 10 (sampleHistory 60))%list in Hsplit.
  symmetry in Hsplit. apply app_same_length in Hsplit.
  - destruct Hsplit as [_ ->]. reflexivity.
  - rewrite Hold. reflexivity.
Defined.

(** ** C4: save, then load *)

(** A snapshot younger than seven days is adopted and rendered. *)
Lemma loadMessageHistory_fresh (now t : Z) (ms : list Message) (s : Chatbot) :
  readable (store s) = true ->
  item (store s) = Some (Parsed (Some t) (Some ms)) ->
  (now - t < sevenDays)%Z ->
  loadMessageHistory now s = renderMessageHistory (setHistory ms s).
Proof.
  intros Hr Hi Hage. unfold loadMessageHistory, getItem. rewrite Hr, Hi.
  apply Z.ltb_lt in Hage. now rewrite Hage.
Qed.

(** Serializing twice is serializing once. *)
Lemma jsonValue_idem : forall v, jsonValue (jsonValue v) = jsonValue v.
Proof.
  fix IH 1. intros [|b|[m e| |neg]|t|items|members]; simpl; try reflexivity.
  - f_equal. induction items as [|x items IHitems]; simpl; [reflexivity|].
    rewrite IH. f_equal. exact IHitems.
  - f_equal. induction members as [|[k x] members IHmembers]; simpl; [reflexivity|].
    rewrite IH. f_equal. exact IHmembers.
Qed.

Lemma throughJSON_idem (m : Message) : throughJSON (throughJSON m) = throughJSON m.
Proof. unfold throughJSON. simpl. now rewrite jsonValue_idem. Qed.

(** A string is written and read back as it is. *)
Lemma string_jsonStable (v : JS) : Spec.isString v -> Spec.jsonStable v.
Proof. intros [t ->]. reflexivity. Qed.

(** C4, as stated, fails on the code. A reply that is the number of a too
    large literal ([1e400] parses to Infinity, which is truthy and so is
    returned by the resolver and added as a bot message) is written by
    [JSON.stringify] as [null]: after saving the three messages and loading
    them a second later, the third content is [null]. *)
Lemma C4_counterexample :
  nth_error (timers overflowSent) 3 = Some (500%Z, TimerAddBot (Number (Infinite false))) /\
  map (fun m => (sender m, content m)) (messageHistory overflowChat)
    = [("bot", Str "Hello! How can I help you today?"); ("user", Str "hi");
       ("bot", Number (Infinite false))] /\
  writable (store overflowChat) = true /\
  readable (store overflowChat) = true /\
  map (fun m => (sender m, content m))
      (messageHistory
         (loadMessageHistory 5000
            (fresh noOptions (store (saveMessageHistory 4000 overflowChat)))))
    = [("bot", Str "Hello! How can I help you today?"); ("user", Str "hi"); ("bot", Null)].
Proof. repeat split; vm_compute; reflexivity. Qed.

(** C4 (amended): a history of at most 50 messages is saved at time [saved];
    an instance over the same store loads it at time [loaded], less than
    seven days later. The loaded history is the saved one serialized: the
    same senders, ids and time values (now as ISO texts) in the same order,
    and each content as [JSON.stringify] and [JSON.parse] leave it. The
    sequence of sender and content pairs is identical when every content
    comes through JSON unchanged, as every string does. *)
Theorem C4_save_load_round_trip (saved loaded : Z) (s s' : Chatbot) :
  (List.length (messageHistory s) <= 50)%nat ->
  writable (store s) = true ->
  readable (store s) = true ->
  store s' = store (saveMessageHistory saved s) ->
  (loaded - saved < sevenDays)%Z ->
  let h := messageHistory (loadMessageHistory loaded s') in
  h = map throughJSON (messageHistory s) /\
  map sender h = map sender (messageHistory s) /\
  map id h = map id (messageHistory s) /\
  map (fun m => timeValue (timestamp m)) h
    = map (fun m => timeValue (timestamp m)) (messageHistory s) /\
  map content h = map (fun m => jsonValue (content m)) (messageHistory s) /\
  (Forall (fun m => Spec.jsonStable (content m)) (messageHistory s) ->
   map (fun m => (sender m, content m)) h
     = map (fun m => (sender m, content m)) (messageHistory s)) /\
  (Forall (fun m => Spec.isString (content m)) (messageHistory s) ->
   map (fun m => (sender m, content m)) h
     = map (fun m => (sender m, content m)) (messageHistory s)).
Proof.
  intros Hlen Hw Hr Hstore Hage h.
  assert (Hh : h = map throughJSON (messageHistory s)).
  { unfold h. rewrite (loadMessageHistory_fresh loaded saved (map throughJSON (messageHistory s))).
    - reflexivity.
    - rewrite Hstore. unfold saveMessageHistory, setItem. now rewrite Hw.
    - rewrite Hstore, saveMessageHistory_item by exact Hw.
      unfold snapshotOf. now rewrite sliceLast_all.
    - exact Hage. }
  assert (Hstable : Forall (fun m => Spec.jsonStable (content m)) (messageHistory s) ->
                    map (fun m => (sender m, content m)) h
                    = map (fun m => (sender m, content m)) (messageHistory s)).
  { intros Hall. rewrite Hh, map_map. apply map_ext_in. intros m Hin.
    rewrite Forall_forall in Hall. simpl. now rewrite (Hall m Hin). }
  split; [exact Hh|].
  split; [rewrite Hh, map_map; apply map_ext; intros m; reflexivity|].
  split; [rewrite Hh, map_map; apply map_ext; intros m; reflexivity|].
  split; [rewrite Hh, map_map; apply map_ext; intros m; reflexivity|].
  split; [rewrite Hh, map_map; apply map_ext; intros m; reflexivity|].
  split; [exact Hstable|].
  intros Hall. apply Hstable.
  eapply Forall_impl; [|exact Hall]. intros m. apply string_jsonStable.
Qed.

(** A two-message conversation saved at time 5000 and loaded one day later by
    a new instance. *)
Lemma C4_save_load_round_trip_witness :
  let s := sendMessage 2000 "r" FetchRejected
             (setInput "hello" (construct noOptions (mkStore None true true) 1000 "a")) in
  let s' := fresh noOptions (store (saveMessageHistory 5000 s)) in
  let h := messageHistory (loadMessageHistory (5000 + 86400000) s') in
  map (fun m => (sender m, content m)) h
    = [("bot", Str "Hello! How can I help you today?"); ("user", Str "hello")] /\
  map (fun m => timeValue (timestamp m)) h = [1000%Z; 2000%Z].
Proof.
  intros s s' h.
  destruct (C4_save_load_round_trip 5000 (5000 + 86400000) s s')
    as (_ & _ & _ & Ht & _ & _ & Hp).
  - vm_compute. lia.
  - vm_compute. reflexivity.
  - vm_compute. reflexivity.
  - vm_compute. reflexivity.
  - vm_compute. reflexivity.
  - split; [|exact Ht].
    assert (Hall : Forall (fun m => Spec.isString (content m)) (messageHistory s)).
    { change (messageHistory s)
        with [mkMessage "bot" (Str "Hello! How can I help you today?") (DateObj 1000)
                (generateMessageId 1000 "a");
              mkMessage "user" (Str "hello") (DateObj 2000) (generateMessageId 2000 "r")].
      repeat constructor; eexists; reflexivity. }
    exact (Hp Hall).
Defined.

(** ** C5: initialization without a usable snapshot *)

Lemma loadMessageHistory_noSnapshot (now : Z) (s : Chatbot) :
  Spec.noSnapshot now (store s) ->
  messageHistory (loadMessageHistory now s) = messageHistory s /\
  rendered (loadMessageHistory now s) = rendered s /\
  store (loadMessageHistory now s) = store s /\
  config (loadMessageHistory now s) = config s /\
  timers (loadMessageHistory now s) = timers s.
Proof.
  intros H. unfold loadMessageHistory, getItem.
  destruct H as [Hr Hi|Hr|Hi|Hi|Hi|ms Hi|t Hi|t ms Hi Hold].
  - now rewrite Hr, Hi.
  - now rewrite Hr.
  - rewrite Hi. now destruct (readable (store s)).
  - rewrite Hi. now destruct (readable (store s)).
  - rewrite Hi. now destruct (readable (store s)).
  - rewrite Hi. now destruct (readable (store s)).
  - rewrite Hi. destruct (readable (store s)); [|easy]. now destruct t.
  - rewrite Hi. destruct (readable (store s)); [|easy].
    destruct ms as [ms|]; [|easy].
    apply Z.ltb_ge in Hold. now rewrite Hold.
Qed.

Lemma addMessage_history (now : Z) (rnd sender : string) (content : JS)
    (timestamp : option Stamp) (s : Chatbot) :
  messageHistory (addMessage now rnd sender content timestamp s)
  = (messageHistory s ++
     [ {| sender := sender; content := content;
          timestamp := match timestamp with Some t => t | None => DateObj now end;
          id := generateMessageId now rnd |} ])%list.
Proof.
  unfold addMessage, saveMessageHistory, scrollToBottom, updateUnreadCount.
  destruct (setItem _ _); simpl; now destruct (isOpen s).
Qed.

Lemma addMessage_rendered (now : Z) (rnd sender : string) (content : JS)
    (timestamp : option Stamp) (s : Chatbot) :
  rendered (addMessage now rnd sender content timestamp s)
  = (rendered s ++
     [ {| sender := sender; content := content;
          timestamp := match timestamp with Some t => t | None => DateObj now end;
          id := generateMessageId now rnd |} ])%list.
Proof.
  unfold addMessage, saveMessageHistory, scrollToBottom, updateUnreadCount.
  destruct (setItem _ _); simpl; now destruct (isOpen s).
Qed.

Lemma addMessage_item (now : Z) (rnd sender : string) (content : JS)
    (timestamp : option Stamp) (s : Chatbot) :
  writable (store s) = true ->
  item (store (addMessage now rnd sender content timestamp s))
  = Some (snapshotOf now (messageHistory (addMessage now rnd sender content timestamp s))).
Proof.
  intros Hw. rewrite addMessage_history.
  unfold addMessage, saveMessageHistory, scrollToBottom, updateUnreadCount, setItem.
  simpl. rewrite Hw. simpl. now destruct (isOpen s).
Qed.

(** The instance when [init] has loaded the history and set the timer of
    [autoOpen]. *)
Lemma init_eq (now : Z) (rnd : string) (s : Chatbot) :
  messageHistory (loadMessageHistory now s) = [] ->
  init now rnd s
  = addMessage now rnd "bot" (Str (welcomeMessage (config s))) None
      (if autoOpen (config s)
       then setTimeout TimerOpenChat 1000 (loadMessageHistory now s)
       else loadMessageHistory now s).
Proof.
  intros Hh. unfold init.
  assert (Hc : config (loadMessageHistory now s) = config s).
  { unfold loadMessageHistory.
    destruct (getItem (store s)) as [[[| | |[t|] [ms|]]|]|]; try reflexivity.
    now destruct (now - t <? sevenDays)%Z. }
  rewrite Hc.
  destruct (autoOpen (config s)); simpl; rewrite Hh; simpl; now rewrite ?Hc.
Qed.






(** ** C6: nothing is sent from a blank input *)

Lemma trimStart_blank (s : string) : Spec.blank s = true -> Str.trimStart s = "".
Proof.
  induction s as [|c s IH]; simpl; [reflexivity|].
  intros H. apply andb_true_iff in H as [Hc Hs]. rewrite Hc. now apply IH.
Qed.

(** A text of white space only trims to the empty text. *)
Lemma trim_blank (s : string) : Spec.blank s = true -> Str.trim s = "".
Proof. intros H. unfold Str.trim. now rewrite trimStart_blank. Qed.

(** C6: when the input is empty or white space only (its trimmed value is
    empty), [sendMessage] returns the state it was given: the history, the
    rendered list, the store, the timers and the trace of effects (resolver
    calls, requests, tracked events) are all unchanged. *)
Theorem C6_blank_input_is_noop (now : Z) (rnd : string) (remote : FetchOutcome)
    (s : Chatbot) :
  Str.trim (inputValue s) = "" \/ Spec.blank (inputValue s) = true ->
  sendMessage now rnd remote s = s /\
  messageHistory (sendMessage now rnd remote s) = messageHistory s /\
  store (sendMessage now rnd remote s) = store s /\
  trace (sendMessage now rnd remote s) = trace s.
Proof.
  intros H.
  assert (Ht : Str.trim (inputValue s) = "").
  { destruct H as [H|H]; [exact H | now apply trim_blank]. }
  assert (Hs : sendMessage now rnd remote s = s).
  { unfold sendMessage. now rewrite Ht. }
  now rewrite Hs.
Qed.

Lemma C6_blank_input_is_noop_witness :
  let s := setInput "   " (construct noOptions (mkStore None true true) 1000 "a") in
  sendMessage 2000 "r" FetchRejected s = s.
Proof.
  intros s.
  apply (C6_blank_input_is_noop 2000 "r" FetchRejected s).
  right. reflexivity.
Defined.

(** ** C7: the remote call fails *)

Lemma stripPrefix_spec (s p post : string) :
  Str.stripPrefix s p = Some post -> s = p ++ post.
Proof.
  revert s; induction p as [|a p IH]; intros s; simpl.
  - now intros [= ->].
  - destruct s as [|b s]; [discriminate|].
    destruct (Ascii.eqb_spec a b) as [->|_]; [|discriminate].
    intros H. now rewrite (IH _ H).
Qed.

Lemma splitFirst_spec (s k pre post : string) :
  Str.splitFirst s k = Some (pre, post) -> s = pre ++ k ++ post.
Proof.
  revert pre; induction s as [|c s IH]; intros pre; simpl.
  - destruct (Str.stripPrefix "" k) as [p|] eqn:E; [|discriminate].
    intros [= <- <-]. change ("" ++ k ++ p) with (k ++ p).
    apply stripPrefix_spec. exact E.
  - destruct (Str.stripPrefix (String c s) k) as [p|] eqn:E.
    + intros [= <- <-]. change ("" ++ k ++ p) with (k ++ p).
      apply stripPrefix_spec. exact E.
    + destruct (Str.splitFirst s k) as [[pre' post']|]; [|discriminate].
      intros [= <- <-]. simpl. f_equal. now apply IH.
Qed.

Lemma append_empty (a b : string) : a ++ b = "" -> a = "" /\ b = "".
Proof. destruct a; simpl; [now split | discriminate]. Qed.

(** Replacing in a template that is neither empty nor the bare pattern leaves
    a text that is not empty. *)
Lemma replace_nonempty (template pattern text : string) :
  template <> "" -> template <> pattern -> Str.replace template pattern text <> "".
Proof.
  intros Hne Hbare. unfold Str.replace.
  destruct (Str.splitFirst template pattern) as [[pre post]|] eqn:E; [|exact Hne].
  intros H. apply append_empty in H as [-> H]. apply append_empty in H as [_ ->].
  apply splitFirst_spec in E. apply Hbare. rewrite E. simpl.
  clear. induction pattern as [|c p IH]; simpl; [reflexivity | now rewrite IH].
Qed.

Lemma scanEntries_in (entries : Object.defs) (lowerMessage reply : string) :
  scanEntries entries lowerMessage = Some reply -> exists key, In (key, reply) entries.
Proof.
  intros H. destruct (scanEntries_split _ _ _ H) as (before & key & after & -> & _).
  exists key. apply in_or_app. right. now left.
Qed.

Lemma localPolicy_nonempty (cfg : Config) (message : string) :
  Spec.repliesNonEmpty cfg ->
  exists text, localPolicy cfg message = Normal (Str text) /\ text <> "".
Proof.
  intros [Hall (template & Hdef & Hne & Hbare)]. unfold localPolicy.
  destruct (scanEntries _ _) as [reply|] eqn:Hscan.
  - exists reply. split; [reflexivity|].
    destruct (scanEntries_in _ _ _ Hscan) as [key Hin].
    rewrite Forall_forall in Hall. exact (Hall _ Hin).
  - rewrite Hdef. eexists. split; [reflexivity|]. now apply replace_nonempty.
Qed.

(** C7, as stated, fails on the code. A success response whose body is the
    JSON object without members does not lead to the local policy (which
    answers [hello] with its greeting) but to a fixed text; and the local
    policy returns the empty text when the reply configured for the matching
    key is empty. *)
Lemma C7_counterexample :
  (snd (getBotResponse (withEndpoint chatUrl) [] (FetchResponse true (BodyJSON (Obj []))) "hello")
     = Normal (Str "Sorry, I didn't understand that.") /\
   localPolicy (withEndpoint chatUrl) "hello"
     = Normal (Str "Hello there! How can I assist you today?")) /\
  snd (getBotResponse (withEndpointAndResponses chatUrl silentResponses) []
         FetchRejected "hello")
    = Normal (Str "").
Proof. repeat split; reflexivity. Qed.

(** C7 (amended): with an endpoint configured, when the request is rejected,
    the status is not a success, or the body is not JSON or is [null],
    [getBotResponse] returns what the local policy returns; a success
    response whose body has neither a truthy [message] nor a truthy
    [response] yields the fixed text [Sorry, I didn't understand that.]; and
    the result of the local policy is a non-empty string whenever every
    configured reply is non-empty and the default template is present and
    more than the bare placeholder. *)
Theorem C7_remote_failure_falls_back (cfg : Config) (url : string)
    (history : list Message) (message : string) :
  endpointSet cfg = Some url ->
  (forall remote,
      Spec.remoteFailed remote ->
      snd (getBotResponse cfg history remote message) = localPolicy cfg message) /\
  (forall data,
      data <> Null ->
      truthy (Spec.field data "message") = false ->
      truthy (Spec.field data "response") = false ->
      getBotResponse cfg history (FetchResponse true (BodyJSON data)) message
      = ([FetchPost url message (sliceLast 10 history)], Normal (Str sorryText))) /\
  (Spec.repliesNonEmpty cfg ->
   exists text, localPolicy cfg message = Normal (Str text) /\ text <> "").
Proof.
  intros Hurl. repeat split.
  - intros remote Hf. unfold getBotResponse. rewrite Hurl.
    destruct Hf as [|body| |]; reflexivity.
  - intros data Hnull Hm Hr. unfold getBotResponse. rewrite Hurl.
    assert (Hp : pickReply data = Normal (Str sorryText)).
    { unfold pickReply, pickResponse, getProp, orElse.
      destruct data as [|b|z|t|items|ms]; try reflexivity; [contradiction|].
      simpl in Hm, Hr.
      destruct (member "message" ms) as [m|]; [rewrite Hm|];
        destruct (member "response" ms) as [r|]; try rewrite Hr; reflexivity. }
    now rewrite Hp.
  - apply localPolicy_nonempty.
Qed.

(** The scenario of the specification: the endpoint is configured, the call
    fails with a network error, and [hello] is answered by the local policy. *)
Lemma C7_remote_failure_falls_back_witness :
  snd (getBotResponse (withEndpoint chatUrl) [] FetchRejected "hello")
    = Normal (Str "Hello there! How can I assist you today?").
Proof.
  destruct (C7_remote_failure_falls_back (withEndpoint chatUrl) chatUrl [] "hello")
    as (H & _).
  - reflexivity.
  - rewrite (H FetchRejected Spec.failed_network). reflexivity.
Defined.

(** ** C8: clearing the chat *)

(** C8: [clearHistory] empties the history and the rendered list, saves (the
    snapshot then holds no message) and appends the welcome message by
    [addMessage]. Afterwards the history and the rendered list hold exactly
    that bot message, as they do after [refreshChat], and when the store takes
    writes the snapshot holds it too; history, rendered list and snapshot are
    those that [init] leaves when it starts from no history and nothing
    stored. *)
Theorem C8_clear_is_fresh_start (now : Z) (rnd : string) (s : Chatbot) :
  let emptied := saveMessageHistory now (setRendered [] (setHistory [] s)) in
  let cleared := clearHistory now rnd s in
  let started := init now rnd (blankSlate s) in
  cleared = addMessage now rnd "bot" (Str (welcomeMessage (config s))) None emptied /\
  messageHistory cleared = [Spec.welcome (config s) now rnd] /\
  rendered cleared = [Spec.welcome (config s) now rnd] /\
  messageHistory (refreshChat now rnd s) = [Spec.welcome (config s) now rnd] /\
  rendered (refreshChat now rnd s) = [Spec.welcome (config s) now rnd] /\
  messageHistory started = messageHistory cleared /\
  rendered started = rendered cleared /\
  (writable (store s) = true ->
   item (store emptied) = Some (Parsed (Some now) (Some [])) /\
   item (store cleared) = Some (snapshotOf now [Spec.welcome (config s) now rnd]) /\
   item (store (refreshChat now rnd s)) = item (store cleared) /\
   item (store started) = item (store cleared)).
Proof.
  intros emptied cleared started.
  assert (Hc : config emptied = config s).
  { unfold emptied, saveMessageHistory. now destruct (setItem _ _). }
  assert (Hcl : cleared = addMessage now rnd "bot" (Str (welcomeMessage (config s))) None emptied).
  { unfold cleared, clearHistory. fold emptied. now rewrite Hc. }
  assert (Hh : messageHistory cleared = [Spec.welcome (config s) now rnd]).
  { rewrite Hcl, addMessage_history. unfold emptied.
    now rewrite saveMessageHistory_history. }
  assert (Hr : rendered cleared = [Spec.welcome (config s) now rnd]).
  { rewrite Hcl, addMessage_rendered. unfold emptied, saveMessageHistory.
    now destruct (setItem _ _). }
  assert (Hno : Spec.noSnapshot now (store (blankSlate s))).
  { destruct (readable (store s)) eqn:E.
    - apply Spec.snapshot_absent; [exact E | reflexivity].
    - apply Spec.snapshot_unreadable. exact E. }
  destruct (loadMessageHistory_noSnapshot now (blankSlate s) Hno) as (Lh & Lr & Ls & Lc & _).
  assert (Hst : started
                = addMessage now rnd "bot" (Str (welcomeMessage (config s))) None
                    (if autoOpen (config s)
                     then setTimeout TimerOpenChat 1000 (loadMessageHistory now (blankSlate s))
                     else loadMessageHistory now (blankSlate s))).
  { unfold started. rewrite init_eq; [reflexivity | exact Lh]. }
  repeat split.
  - exact Hcl.
  - exact Hh.
  - exact Hr.
  - exact Hh.
  - exact Hr.
  - rewrite Hh, Hst, addMessage_history.
    now destruct (autoOpen (config s)); simpl; rewrite Lh.
  - rewrite Hr, Hst, addMessage_rendered.
    now destruct (autoOpen (config s)); simpl; rewrite Lr.
  - unfold emptied. now rewrite saveMessageHistory_item.
  - rewrite Hcl, addMessage_item.
    + now rewrite <- Hcl, Hh.
    + unfold emptied. rewrite saveMessageHistory_writable. exact H.
  - rewrite Hst, addMessage_item.
    + rewrite <- Hst. rewrite Hcl, addMessage_item.
      * rewrite <- Hcl, Hh. do 2 f_equal.
        rewrite Hst, addMessage_history.
        now destruct (autoOpen (config s)); simpl; rewrite Lh.
      * unfold emptied. rewrite saveMessageHistory_writable. exact H.
    + now destruct (autoOpen (config s)); simpl; rewrite Ls.
Qed.

(** Clearing a two-message conversation. *)
Lemma C8_clear_is_fresh_start_witness :
  let s := sendMessage 2000 "r" FetchRejected
             (setInput "hello" (construct noOptions (mkStore None true true) 1000 "a")) in
  messageHistory (refreshChat 3000 "z" s) = [Spec.welcome defaultConfig 3000 "z"] /\
  item (store (clearHistory 3000 "z" s))
    = Some (snapshotOf 3000 [Spec.welcome defaultConfig 3000 "z"]).
Proof.
  intros s.
  destruct (C8_clear_is_fresh_start 3000 "z" s) as (_ & _ & _ & Hh & _ & _ & _ & Hw).
  destruct (Hw eq_refl) as (_ & Hi & _).
  split; [exact Hh | exact Hi].
Defined.

(** ** What [sendMessage] does on a non-blank input *)

Lemma config_emit (es : list Effect) (s : Chatbot) : config (emit es s) = config s.
Proof. reflexivity. Qed.

Lemma addMessage_config (now : Z) (rnd sender : string) (content : JS)
    (timestamp : option Stamp) (s : Chatbot) :
  config (addMessage now rnd sender content timestamp s) = config s.
Proof.
  unfold addMessage, saveMessageHistory, scrollToBottom, updateUnreadCount.
  destruct (setItem _ _); simpl; now destruct (isOpen s).
Qed.

Lemma sendMessage_nonblank (now : Z) (rnd : string) (remote : FetchOutcome) (s : Chatbot) :
  Str.trim (inputValue s) <> "" ->
  sendMessage now rnd remote s
  = let message := Str.trim (inputValue s) in
    let typing := showTyping (addMessage now rnd "user" (Str message) None
                                (updateSendButton (setInput "" s))) in
    match getBotResponse (config typing) (messageHistory typing) remote message with
    | (effects, Normal response) =>
        trackEvent "message_sent" (Some message)
          (setTimeout (TimerAddBot response) (messageDelay (config typing))
             (hideTyping (emit (ResolverCall message :: effects) typing)))
    | (effects, Throw _) =>
        trackEvent "message_sent" (Some message)
          (setTimeout (TimerAddBot (Str apologyText)) (messageDelay (config typing))
             (hideTyping
                (emit [ConsoleError "Error getting bot response:"]
                   (emit (ResolverCall message :: effects) typing))))
    end.
Proof.
  intros Hne.
  assert (Hn : Str.nonEmpty (Str.trim (inputValue s)) = true).
  { destruct (Str.trim (inputValue s)); [contradiction | reflexivity]. }
  unfold sendMessage. rewrite Hn. simpl negb. cbv beta iota zeta.
  match goal with
  | |- context [getBotResponse ?c ?h remote ?m] =>
      destruct (getBotResponse c h remote m) as [effects [response|e]]
  end; rewrite !config_emit; reflexivity.
Qed.

(** ** C9: the resolver does not throw *)

(** With a [default] entry the local policy returns a string. *)
Lemma localPolicy_returns (cfg : Config) (message : string) :
  Spec.hasDefault cfg -> exists text, localPolicy cfg message = Normal (Str text).
Proof.
  intros [template Hdef]. unfold localPolicy.
  destruct (scanEntries _ _) as [reply|]; [now exists reply|].
  rewrite Hdef. now eexists.
Qed.

(** The resolver returns what the local policy returns, or a value picked
    from the body of a success response. *)
Lemma getBotResponse_result (cfg : Config) (history : list Message)
    (remote : FetchOutcome) (message : string) :
  snd (getBotResponse cfg history remote message) = localPolicy cfg message \/
  exists data v,
    remote = FetchResponse true (BodyJSON data) /\ pickReply data = Normal v /\
    snd (getBotResponse cfg history remote message) = Normal v.
Proof.
  unfold getBotResponse.
  destruct (endpointSet cfg) as [url|]; [|now left].
  destruct remote as [|[|] [|data]]; try (now left).
  destruct (pickReply data) as [v|e] eqn:E; [|now left].
  right. now exists data, v.
Qed.

(** C9, as stated, fails on the code. The value returned need not be a
    string: a success response with a number under [message] makes the
    resolver return that number. And the map of responses need not have a
    [default] entry: with only [hello] configured, the text [goodbye] makes the
    resolver throw, and [sendMessage] sets the timer of the apology. *)
Lemma C9_counterexample :
  snd (getBotResponse (withEndpoint chatUrl) []
         (FetchResponse true (BodyJSON (Obj [("message", Num 42)]))) "hello")
    = Normal (Num 42) /\
  localPolicy (withResponses greetingOnly) "goodbye" = Throw TypeError /\
  In (500%Z, TimerAddBot (Str apologyText))
     (timers (sendMessage 2000 "r" FetchRejected
                (setInput "goodbye"
                   (construct (onlyResponses greetingOnly) (mkStore None true true) 1000 "a")))).
Proof.
  split; [reflexivity|]. split; [reflexivity|].
  vm_compute. right. right. right. now left.
Qed.

(** C9 (amended): when the responses of the configuration have a [default]
    entry, [getBotResponse] returns a value and does not throw, for every
    text, history and behaviour of the endpoint; the value is a string when
    no endpoint is configured or the remote call failed. [sendMessage] on a
    non-blank input then takes the branch that sets the timer of the resolved
    reply, never the one of the apology. *)
Theorem C9_resolver_never_throws (s : Chatbot) :
  Spec.hasDefault (config s) ->
  (forall history remote message,
      exists v,
        snd (getBotResponse (config s) history remote message) = Normal v /\
        (endpointSet (config s) = None \/ Spec.remoteFailed remote -> Spec.isString v)) /\
  (forall now rnd remote,
      Str.trim (inputValue s) <> "" ->
      let message := Str.trim (inputValue s) in
      let typing := showTyping (addMessage now rnd "user" (Str message) None
                                  (updateSendButton (setInput "" s))) in
      exists effects v,
        getBotResponse (config typing) (messageHistory typing) remote message
          = (effects, Normal v) /\
        sendMessage now rnd remote s
        = trackEvent "message_sent" (Some message)
            (setTimeout (TimerAddBot v) (messageDelay (config typing))
               (hideTyping (emit (ResolverCall message :: effects) typing)))).
Proof.
  intros Hdef.
  assert (Hres : forall history remote message,
             exists v, snd (getBotResponse (config s) history remote message) = Normal v /\
                       (endpointSet (config s) = None \/ Spec.remoteFailed remote ->
                        Spec.isString v)).
  { intros history remote message.
    destruct (localPolicy_returns (config s) message Hdef) as [text Hloc].
    destruct (getBotResponse_result (config s) history remote message)
      as [H | (data & v & Hrem & Hpick & H)].
    - exists (Str text). split; [congruence|]. intros _. now exists text.
    - exists v. split; [exact H|]. intros [Hno | Hfail].
      + rewrite getBotResponse_local in H by exact Hno. simpl in H.
        exists text. congruence.
      + subst remote. inversion Hfail; subst. discriminate. }
  split; [exact Hres|].
  intros now rnd remote Hne message typing.
  rewrite (sendMessage_nonblank now rnd remote s Hne). cbv zeta.
  fold message. fold typing.
  assert (Hcfg : config typing = config s).
  { unfold typing, showTyping, scrollToBottom, setTimeout, setTyping. simpl.
    rewrite addMessage_config. reflexivity. }
  destruct (Hres (messageHistory typing) remote message) as (v & Hv & _).
  rewrite <- Hcfg in Hv.
  destruct (getBotResponse (config typing) (messageHistory typing) remote message)
    as [effects result].
  simpl in Hv. subst result.
  exists effects, v. split; reflexivity.
Qed.

(** The default configuration answers [goodbye] with its default reply. *)
Lemma C9_resolver_never_throws_witness :
  let s := setInput "goodbye" (construct noOptions (mkStore None true true) 1000 "a") in
  exists v, snd (getBotResponse (config s) [] FetchRejected "goodbye") = Normal v /\
            Spec.isString v.
Proof.
  intros s.
  destruct (C9_resolver_never_throws s) as [H _].
  - eexists. reflexivity.
  - destruct (H [] FetchRejected "goodbye") as (v & Hv & Hs).
    exists v. split; [exact Hv|]. apply Hs. now left.
Defined.

(** ** C10: sender tags and statistics *)

(** The tasks below do not touch the history or the store. *)
Lemma conversation_setInput v s : conversation (setInput v s) = conversation s.
Proof. reflexivity. Qed.
Lemma conversation_updateSendButton s : conversation (updateSendButton s) = conversation s.
Proof. reflexivity. Qed.
Lemma conversation_showTyping s : conversation (showTyping s) = conversation s.
Proof. reflexivity. Qed.
Lemma conversation_hideTyping s : conversation (hideTyping s) = conversation s.
Proof. reflexivity. Qed.
Lemma conversation_emit es s : conversation (emit es s) = conversation s.
Proof. reflexivity. Qed.
Lemma conversation_setTimeout t d s : conversation (setTimeout t d s) = conversation s.
Proof. reflexivity. Qed.
Lemma conversation_trackEvent e d s : conversation (trackEvent e d s) = conversation s.
Proof. reflexivity. Qed.
Lemma conversation_scrollToBottom s : conversation (scrollToBottom s) = conversation s.
Proof. reflexivity. Qed.
Lemma conversation_setRefreshTransform v s :
  conversation (setRefreshTransform v s) = conversation s.
Proof. reflexivity. Qed.
Lemma conversation_dropTimer n s : conversation (dropTimer n s) = conversation s.
Proof. reflexivity. Qed.
Lemma conversation_openChat s : conversation (openChat s) = conversation s.
Proof. reflexivity. Qed.
Lemma conversation_closeChat s : conversation (closeChat s) = conversation s.
Proof. reflexivity. Qed.
Lemma conversation_updateConfig c s : conversation (updateConfig c s) = conversation s.
Proof. reflexivity. Qed.

Lemma conversation_toggleChat s : conversation (toggleChat s) = conversation s.
Proof. unfold toggleChat. now destruct (isOpen s). Qed.

Lemma conversation_handleKeyboardShortcuts key ctrlOrMeta s :
  conversation (handleKeyboardShortcuts key ctrlOrMeta s) = conversation s.
Proof.
  unfold handleKeyboardShortcuts.
  destruct (ctrlOrMeta && _); destruct (_ && isOpen s);
    rewrite ?conversation_toggleChat, ?conversation_closeChat; reflexivity.
Qed.

Create Rewrite HintDb conversation.
#[local] Hint Rewrite conversation_setInput conversation_updateSendButton
  conversation_showTyping conversation_hideTyping conversation_emit
  conversation_setTimeout conversation_trackEvent conversation_scrollToBottom
  conversation_setRefreshTransform conversation_dropTimer conversation_openChat
  conversation_closeChat conversation_updateConfig conversation_toggleChat
  conversation_handleKeyboardShortcuts : conversation.

Lemma wellTagged_ext (s s' : Chatbot) :
  conversation s' = conversation s -> Spec.wellTagged s -> Spec.wellTagged s'.
Proof.
  unfold conversation, Spec.wellTagged. intros [= Hh Hs]. now rewrite Hh, Hs.
Qed.

Ltac same_conversation :=
  eapply wellTagged_ext; [autorewrite with conversation; reflexivity|].

Lemma senderOk_throughJSON (l : list Message) :
  Forall Spec.senderOk l -> Forall Spec.senderOk (map throughJSON l).
Proof. induction 1; simpl; constructor; auto. Qed.

Lemma senderOk_sliceLast (n : nat) (l : list Message) :
  Forall Spec.senderOk l -> Forall Spec.senderOk (sliceLast n l).
Proof.
  intros H. destruct (sliceLast_suffix n l) as [older E].
  rewrite E in H. now apply Forall_app in H as [_ H].
Qed.

Lemma saveMessageHistory_tagged (now : Z) (s : Chatbot) :
  Spec.wellTagged s -> Spec.wellTagged (saveMessageHistory now s).
Proof.
  intros [Hh Hs]. unfold saveMessageHistory, setItem.
  destruct (writable (store s)).
  - split; [exact Hh|]. unfold Spec.storedOk, snapshotOf. simpl.
    now apply senderOk_throughJSON, senderOk_sliceLast.
  - now split.
Qed.

Lemma addMessage_conversation (now : Z) (rnd sender : string) (content : JS)
    (timestamp : option Stamp) (s : Chatbot) :
  conversation (addMessage now rnd sender content timestamp s)
  = conversation
      (saveMessageHistory now
         (setHistory
            (messageHistory s ++
             [ {| sender := sender; content := content;
                  timestamp := match timestamp with Some t => t | None => DateObj now end;
                  id := generateMessageId now rnd |} ]) s)).
Proof.
  unfold addMessage, scrollToBottom, updateUnreadCount. simpl.
  now destruct (negb _).
Qed.

Lemma addMessage_tagged (now : Z) (rnd sender : string) (content : JS)
    (timestamp : option Stamp) (s : Chatbot) :
  sender = "user" \/ sender = "bot" ->
  Spec.wellTagged s -> Spec.wellTagged (addMessage now rnd sender content timestamp s).
Proof.
  intros Hsender [Hh Hs].
  eapply wellTagged_ext; [apply addMessage_conversation|].
  apply saveMessageHistory_tagged. split; [|exact Hs]. simpl.
  apply Forall_app. split; [exact Hh|]. constructor; [exact Hsender | constructor].
Qed.

Lemma loadMessageHistory_tagged (now : Z) (s : Chatbot) :
  Spec.wellTagged s -> Spec.wellTagged (loadMessageHistory now s).
Proof.
  intros H. unfold loadMessageHistory, getItem.
  destruct (readable (store s)); [|exact H].
  destruct (item (store s)) as [stored|] eqn:E; [|exact H].
  destruct stored as [| | |time messages]; try exact H.
  destruct time as [storedDate|]; [|exact H].
  destruct messages as [ms|]; [|exact H].
  destruct (now - storedDate <? sevenDays)%Z; [|exact H].
  destruct H as [_ Hs]. unfold Spec.storedOk in Hs. rewrite E in Hs.
  split; [exact Hs|]. unfold Spec.storedOk. simpl. now rewrite E.
Qed.

Lemma init_tagged (now : Z) (rnd : string) (s : Chatbot) :
  Spec.wellTagged s -> Spec.wellTagged (init now rnd s).
Proof.
  intros H. apply (loadMessageHistory_tagged now) in H. unfold init.
  generalize dependent (loadMessageHistory now s). intros s1 H.
  assert (H2 : Spec.wellTagged (if autoOpen (config s1)
                                then setTimeout TimerOpenChat 1000 s1 else s1)).
  { destruct (autoOpen (config s1)); [|exact H]. same_conversation. exact H. }
  destruct (_ =? 0)%nat; [|exact H2].
  apply addMessage_tagged; [now right | exact H2].
Qed.

Lemma clearHistory_tagged (now : Z) (rnd : string) (s : Chatbot) :
  Spec.wellTagged s -> Spec.wellTagged (clearHistory now rnd s).
Proof.
  intros [_ Hs]. unfold clearHistory.
  apply addMessage_tagged; [now right|].
  apply saveMessageHistory_tagged. split; [constructor | exact Hs].
Qed.

Lemma sendMessage_tagged (now : Z) (rnd : string) (remote : FetchOutcome) (s : Chatbot) :
  Spec.wellTagged s -> Spec.wellTagged (sendMessage now rnd remote s).
Proof.
  intros H. destruct (Str.trim (inputValue s)) as [|c r] eqn:Et.
  - unfold sendMessage. now rewrite Et.
  - rewrite sendMessage_nonblank by (rewrite Et; discriminate). cbv zeta.
    assert (Hu : Spec.wellTagged
                   (addMessage now rnd "user" (Str (Str.trim (inputValue s))) None
                      (updateSendButton (setInput "" s)))).
    { apply addMessage_tagged; [now left|]. same_conversation. exact H. }
    generalize dependent (addMessage now rnd "user" (Str (Str.trim (inputValue s))) None
                            (updateSendButton (setInput "" s))).
    intros sent Hu.
    destruct (getBotResponse _ _ remote _) as [effects [v|e]];
      same_conversation; exact Hu.
Qed.

Lemma runTimer_tagged (now : Z) (rnd : string) (t : Timer) (n : nat) (s : Chatbot) :
  Spec.wellTagged s -> Spec.wellTagged (runTimer now rnd t (dropTimer n s)).
Proof.
  intros H.
  assert (Hd : Spec.wellTagged (dropTimer n s)) by (same_conversation; exact H).
  generalize dependent (dropTimer n s). intros d Hd.
  destruct t; simpl.
  - same_conversation. exact Hd.
  - same_conversation. exact Hd.
  - exact Hd.
  - same_conversation. exact Hd.
  - apply addMessage_tagged; [now right | exact Hd].
Qed.

Lemma step_tagged (s s' : Chatbot) :
  step s s' -> Spec.wellTagged s -> Spec.wellTagged s'.
Proof.
  intros Hstep H. destruct Hstep.
  - same_conversation. exact H.
  - now apply sendMessage_tagged.
  - now apply runTimer_tagged.
  - unfold refreshChat. cbv zeta.
    pose proof (clearHistory_tagged now rnd s H) as Hc.
    generalize dependent (clearHistory now rnd s). intros cleared Hc.
    same_conversation. exact Hc.
  - now apply clearHistory_tagged.
  - same_conversation. exact H.
  - same_conversation. exact H.
  - same_conversation. exact H.
  - same_conversation. exact H.
  - same_conversation. exact H.
  - apply init_tagged. split; [constructor | exact (proj2 H)].
Qed.

(** Every reachable state carries the two sender tags only. *)
Lemma reachable_tagged (s : Chatbot) : reachable s -> Spec.wellTagged s.
Proof.
  induction 1 as [options st now rnd Hitem | s s' _ IH Hstep].
  - apply init_tagged. split; [constructor|].
    unfold Spec.storedOk. simpl. now rewrite Hitem.
  - exact (step_tagged _ _ Hstep IH).
Qed.

(** A message with one of the two tags is counted once, by its tag. *)
Lemma count_by_sender (h : list Message) :
  Forall Spec.senderOk h ->
  List.length h
  = (List.length (filter (fun msg => String.eqb (sender msg) "user") h)
     + List.length (filter (fun msg => String.eqb (sender msg) "bot") h))%nat.
Proof.
  induction 1 as [|m h [Hm|Hm] _ IH]; [reflexivity| |]; simpl; rewrite Hm; simpl; lia.
Qed.

(** C10: in every state the controller reaches (from a first visit, by user
    actions, timers, interface calls and reloads) each message of the history
    has sender [user] or [bot], every task keeps it so, and the statistics
    satisfy totalMessages = userMessages + botMessages. *)
Theorem C10_senders_and_stats (s : Chatbot) :
  reachable s ->
  Forall Spec.senderOk (messageHistory s) /\
  (forall s', step s s' -> Forall Spec.senderOk (messageHistory s')) /\
  totalMessages (getStats s) = (userMessages (getStats s) + botMessages (getStats s))%nat.
Proof.
  intros Hr. pose proof (reachable_tagged s Hr) as Ht.
  split; [exact (proj1 Ht)|]. split.
  - intros s' Hstep. exact (proj1 (step_tagged _ _ Hstep Ht)).
  - unfold getStats. simpl. apply count_by_sender. exact (proj1 Ht).
Qed.

(** After the welcome message, one message sent and its reply delivered. *)
Lemma C10_senders_and_stats_witness :
  let s0 := construct noOptions (mkStore None true true) 1000 "a" in
  let s1 := sendMessage 2000 "r" FetchRejected (updateSendButton (setInput "hello" s0)) in
  totalMessages (getStats s1) = (userMessages (getStats s1) + botMessages (getStats s1))%nat.
Proof.
  intros s0 s1.
  apply (C10_senders_and_stats s1).
  apply (reach_step (updateSendButton (setInput "hello" s0))).
  - apply (reach_step s0).
    + apply reach_first. reflexivity.
    + apply step_input.
  - apply step_send.
Defined.

(** * Further properties of the controller *)

(** ** The time label *)

Ltac formatTime_cases :=
  unfold formatTime; cbv zeta;
  repeat match goal with
         | |- context [(?a <? ?b)%Z] => destruct (Z.ltb_spec a b)
         end;
  try reflexivity; try (exfalso; Z.div_mod_to_equations; lia).

(** X1: the label of a message depends on its age [now - date] alone: below
    one minute (also for a date in the future) it is [just now]; from one
    minute to below one hour it counts the whole minutes, 1 to 59; from one
    hour to below one day the whole hours, 1 to 23; from one day to below
    seven days the whole days, 1 to 6; from seven days on it is the date. No
    label shows a count of zero. *)
Theorem X1_formatTime_buckets (now : Z) (timestamp : Stamp) :
  let age := (now - timeValue timestamp)%Z in
  ((age < 60000)%Z -> formatTime now timestamp = LabelText "just now") /\
  ((60000 <= age < 3600000)%Z ->
   exists m, (1 <= m <= 59)%Z /\ (m * 60000 <= age < (m + 1) * 60000)%Z /\
             formatTime now timestamp = LabelText (decimal m ++ "m ago")) /\
  ((3600000 <= age < 86400000)%Z ->
   exists h, (1 <= h <= 23)%Z /\ (h * 3600000 <= age < (h + 1) * 3600000)%Z /\
             formatTime now timestamp = LabelText (decimal h ++ "h ago")) /\
  ((86400000 <= age < 604800000)%Z ->
   exists d, (1 <= d <= 6)%Z /\ (d * 86400000 <= age < (d + 1) * 86400000)%Z /\
             formatTime now timestamp = LabelText (decimal d ++ "d ago")) /\
  ((604800000 <= age)%Z -> formatTime now timestamp = LocaleDateString (timeValue timestamp)).
Proof.
  intros age. unfold age. repeat split.
  - intros H. formatTime_cases.
  - intros H. exists ((now - timeValue timestamp) / 60000)%Z.
    repeat split; try (Z.div_mod_to_equations; lia). formatTime_cases.
  - intros H. exists ((now - timeValue timestamp) / 3600000)%Z.
    repeat split; try (Z.div_mod_to_equations; lia). formatTime_cases.
  - intros H. exists ((now - timeValue timestamp) / 86400000)%Z.
    repeat split; try (Z.div_mod_to_equations; lia). formatTime_cases.
  - intros H. formatTime_cases.
Qed.

(** A message of ninety minutes ago is labelled [1h ago]; one whose date is
    ahead of the clock is labelled [just now]. *)
Lemma X1_formatTime_buckets_witness :
  formatTime 5400000 (DateObj 0) = LabelText "1h ago" /\
  formatTime 0 (IsoString 5000) = LabelText "just now".
Proof.
  destruct (X1_formatTime_buckets 5400000 (DateObj 0)) as (_ & _ & Hh & _).
  destruct (X1_formatTime_buckets 0 (IsoString 5000)) as (Hj & _).
  split.
  - destruct Hh as (h & Hb & Hr & E); [simpl; lia|].
    simpl in Hr. assert (h = 1%Z) by lia. subst h. exact E.
  - apply Hj. simpl. lia.
Defined.

(** ** The send button and the input *)

Lemma trimEnd_blank (s : string) : Str.trimEnd s = "" <-> Spec.blank s = true.
Proof.
  induction s as [|c s IH]; simpl; [tauto|].
  destruct (Str.trimEnd s) as [|d r] eqn:E.
  - destruct (Str.isSpace c); simpl.
    + split; intros _; [now apply IH | reflexivity].
    + split; discriminate.
  - split; [discriminate|]. intros H. apply andb_true_iff in H as [_ H].
    apply IH in H. discriminate.
Qed.

Lemma blank_trimStart (s : string) : Spec.blank (Str.trimStart s) = Spec.blank s.
Proof.
  induction s as [|c s IH]; simpl; [reflexivity|].
  destruct (Str.isSpace c) eqn:E; simpl; [exact IH | now rewrite E].
Qed.

(** The trimmed text is empty exactly for a text of white space only. *)
Lemma trim_empty_iff (s : string) : Str.trim s = "" <-> Spec.blank s = true.
Proof. unfold Str.trim. now rewrite trimEnd_blank, blank_trimStart. Qed.

Lemma sendMessage_blank (now : Z) (rnd : string) (remote : FetchOutcome) (s : Chatbot) :
  Str.trim (inputValue s) = "" -> sendMessage now rnd remote s = s.
Proof. intros H. unfold sendMessage. now rewrite H. Qed.

(** X2: [updateSendButton] disables the send button exactly when the input
    is empty or white space only, with opacity 0.5, and enables it with
    opacity 1 otherwise; whenever it has disabled the button, [sendMessage]
    on that state does nothing. *)
Theorem X2_send_button_tracks_input (s : Chatbot) :
  (sendDisabled (updateSendButton s) = true <-> Spec.blank (inputValue s) = true) /\
  (sendDisabled (updateSendButton s) = true ->
   sendOpacity (updateSendButton s) = "0.5" /\
   forall now rnd remote,
     sendMessage now rnd remote (updateSendButton s) = updateSendButton s) /\
  (sendDisabled (updateSendButton s) = false -> sendOpacity (updateSendButton s) = "1").
Proof.
  unfold updateSendButton. simpl.
  destruct (Str.trim (inputValue s)) as [|c r] eqn:E; simpl.
  - repeat split; try discriminate.
    + intros _. now apply trim_empty_iff.
    + intros now rnd remote. now apply sendMessage_blank.
  - repeat split; try discriminate.
    intros H. apply trim_empty_iff in H. congruence.
Qed.

Lemma X2_send_button_tracks_input_witness :
  let s := setInput "  " (construct noOptions (mkStore None true true) 1000 "a") in
  sendOpacity (updateSendButton s) = "0.5" /\
  sendMessage 2000 "r" FetchRejected (updateSendButton s) = updateSendButton s.
Proof.
  intros s.
  destruct (X2_send_button_tracks_input s) as (_ & H & _).
  destruct (H eq_refl) as [Ho Hs].
  split; [exact Ho | apply Hs].
Defined.

(** ** What a message adds *)

(** [addMessage], field by field: the message goes to the end of the history
    and of the rendered list, a scroll is scheduled, and the snapshot is
    written, or a warning is logged when the store refuses the write. *)
Lemma addMessage_state (now : Z) (rnd sender : string) (content : JS)
    (timestamp : option Stamp) (s : Chatbot) :
  let messageData :=
    {| sender := sender; content := content;
       timestamp := match timestamp with Some t => t | None => DateObj now end;
       id := generateMessageId now rnd |} in
  addMessage now rnd sender content timestamp s
  = mkChatbot (config s) (isOpen s) (isTyping s) (messageHistory s ++ [messageData])
      (inputValue s) (sendDisabled s) (sendOpacity s) (containerShown s) (toggleActive s)
      (typingShown s) (rendered s ++ [messageData]) (refreshTransform s)
      (if writable (store s)
       then mkStore (Some (snapshotOf now (messageHistory s ++ [messageData])))
                    (readable (store s)) true
       else store s)
      (timers s ++ [(100%Z, TimerScroll)])
      (if writable (store s) then trace s
       else trace s ++ [ConsoleWarn "Could not save message history:"]).
Proof.
  unfold addMessage, saveMessageHistory, setItem, scrollToBottom, updateUnreadCount,
    setTimeout, setRendered. simpl.
  destruct (writable (store s)) eqn:E; unfold setStore, emit, setHistory; simpl;
    rewrite ?E; destruct (isOpen s); reflexivity.
Qed.

(** The state in which [sendMessage] leaves the resolver's turn: after
    [showTyping], the effects of the resolver, [hideTyping], the timer of the
    reply and the tracked event. *)
Lemma scheduled_fields (e : string) (d : option string) (t : Timer) (delay : Z)
    (es : list Effect) (x : Chatbot) :
  let r := trackEvent e d (setTimeout t delay (hideTyping (emit es (showTyping x)))) in
  messageHistory r = messageHistory x /\
  rendered r = rendered x /\
  inputValue r = inputValue x /\
  sendDisabled r = sendDisabled x /\
  isTyping r = false /\
  typingShown r = false /\
  config r = config x /\
  isOpen r = isOpen x /\
  timers r = ((timers x ++ [(100%Z, TimerScroll)]) ++ [(delay, t)])%list /\
  trace r = ((trace x ++ es) ++ [ConsoleLog e d])%list.
Proof. repeat split. Qed.

Lemma emit_emit (a b : list Effect) (x : Chatbot) : emit b (emit a x) = emit (a ++ b) x.
Proof. unfold emit. simpl. now rewrite app_assoc. Qed.

(** The state after the user message of [sendMessage] has been added. *)
Lemma sent_fields (now : Z) (rnd message : string) (s : Chatbot) :
  let sent := mkMessage "user" (Str message) (DateObj now) (generateMessageId now rnd) in
  let x := addMessage now rnd "user" (Str message) None (updateSendButton (setInput "" s)) in
  messageHistory x = (messageHistory s ++ [sent])%list /\
  rendered x = (rendered s ++ [sent])%list /\
  inputValue x = "" /\
  sendDisabled x = true /\
  config x = config s /\
  isOpen x = isOpen s /\
  timers x = (timers s ++ [(100%Z, TimerScroll)])%list /\
  (trace x = trace s \/
   trace x = (trace s ++ [ConsoleWarn "Could not save message history:"])%list).
Proof.
  intros sent x. unfold x. rewrite addMessage_state. cbv zeta. simpl.
  repeat split. destruct (writable (store s)); [now left | now right].
Qed.

(** X3: on a non-blank input [sendMessage] appends one user message, whose
    content is the trimmed input, to the history and to the rendered list;
    it empties the input and disables the send button, leaves the typing
    indicator off, schedules one bot message after [messageDelay] (behind the
    two scrolls of [addMessage] and [showTyping]), calls the resolver with
    the trimmed text and tracks one [message_sent] event, last. *)
Theorem X3_send_effects (now : Z) (rnd : string) (remote : FetchOutcome) (s : Chatbot) :
  Str.trim (inputValue s) <> "" ->
  let message := Str.trim (inputValue s) in
  let sent := mkMessage "user" (Str message) (DateObj now) (generateMessageId now rnd) in
  let s' := sendMessage now rnd remote s in
  messageHistory s' = (messageHistory s ++ [sent])%list /\
  rendered s' = (rendered s ++ [sent])%list /\
  inputValue s' = "" /\
  sendDisabled s' = true /\
  isTyping s' = false /\
  typingShown s' = false /\
  config s' = config s /\
  isOpen s' = isOpen s /\
  (exists reply,
      timers s' = (timers s ++ [(100%Z, TimerScroll); (100%Z, TimerScroll);
                                (messageDelay (config s), TimerAddBot reply)])%list) /\
  (exists middle,
      trace s' = (trace s ++ middle ++ [ConsoleLog "message_sent" (Some message)])%list /\
      In (ResolverCall message) middle).
Proof.
  intros Hne message sent s'.
  destruct (sent_fields now rnd message s) as (Xh & Xr & Xi & Xd & Xc & Xo & Xt & Xe).
  assert (Hs' : s' = sendMessage now rnd remote s) by reflexivity.
  rewrite (sendMessage_nonblank now rnd remote s Hne) in Hs'. cbv zeta in Hs'.
  fold message in Hs'.
  assert (Hcfg : config (showTyping (addMessage now rnd "user" (Str message) None
                                       (updateSendButton (setInput "" s)))) = config s).
  { exact Xc. }
  rewrite Hcfg in Hs'.
  generalize dependent (addMessage now rnd "user" (Str message) None
                          (updateSendButton (setInput "" s))).
  intros x Xh Xr Xi Xd Xc Xo Xt Xe Hs' _.
  clearbody s'.
  assert (Hgoal : forall reply es,
             In (ResolverCall message) es ->
             s' = trackEvent "message_sent" (Some message)
                    (setTimeout (TimerAddBot reply) (messageDelay (config s))
                       (hideTyping (emit es (showTyping x)))) ->
             messageHistory s' = (messageHistory s ++ [sent])%list /\
             rendered s' = (rendered s ++ [sent])%list /\
             inputValue s' = "" /\ sendDisabled s' = true /\
             isTyping s' = false /\ typingShown s' = false /\
             config s' = config s /\ isOpen s' = isOpen s /\
             (exists reply,
                 timers s' = (timers s ++ [(100%Z, TimerScroll); (100%Z, TimerScroll);
                                           (messageDelay (config s), TimerAddBot reply)])%list) /\
             (exists middle,
                 trace s'
                 = (trace s ++ middle ++ [ConsoleLog "message_sent" (Some message)])%list /\
                 In (ResolverCall message) middle)).
  { intros reply es Hin E.
    destruct (scheduled_fields "message_sent" (Some message) (TimerAddBot reply)
                (messageDelay (config s)) es x)
      as (Rh & Rr & Ri & Rd & Rty & Rts & Rc & Ro & Rt & Re).
    cbv zeta in Rh, Rr, Ri, Rd, Rty, Rts, Rc, Ro, Rt, Re.
    rewrite <- E in Rh, Rr, Ri, Rd, Rty, Rts, Rc, Ro, Rt, Re.
    rewrite Rh, Rr, Ri, Rd, Rty, Rts, Rc, Ro, Rt, Re, Xh, Xr, Xi, Xd, Xc, Xo, Xt.
    repeat split.
    - exists reply. now rewrite <- !app_assoc.
    - destruct Xe as [-> | ->].
      + exists es. split; [now rewrite <- !app_assoc | exact Hin].
      + exists (ConsoleWarn "Could not save message history:" :: es).
        split; [now rewrite <- !app_assoc | now right]. }
  destruct (getBotResponse (config s) (messageHistory (showTyping x)) remote message)
    as [effects [v|e]].
  - apply (Hgoal v (ResolverCall message :: effects)); [now left | exact Hs'].
  - rewrite emit_emit in Hs'.
    apply (Hgoal (Str apologyText)
             ((ResolverCall message :: effects)
              ++ [ConsoleError "Error getting bot response:"])%list);
      [now left | exact Hs'].
Qed.

Lemma X3_send_effects_witness :
  let s := setInput "  hello " (construct noOptions (mkStore None true true) 1000 "a") in
  inputValue (sendMessage 2000 "r" FetchRejected s) = "" /\
  sendDisabled (sendMessage 2000 "r" FetchRejected s) = true.
Proof.
  intros s.
  destruct (X3_send_effects 2000 "r" FetchRejected s) as (_ & _ & Hi & Hd & _).
  - vm_compute. discriminate.
  - split; [exact Hi | exact Hd].
Defined.

Lemma nth_error_after {A : Type} (l : list A) (a b c : A) :
  nth_error (l ++ [a; b; c]) (List.length l + 2) = Some c.
Proof.
  rewrite nth_error_app2 by lia.
  replace (List.length l + 2 - List.length l)%nat with 2%nat by lia. reflexivity.
Qed.

(** X4: a non-blank send followed by its reply timer. The timer set by
    [sendMessage] carries what the resolver returned for the trimmed text
    (called with the history that already holds the new user message), or the
    apology when the resolver threw; when it runs, the history is the old one
    followed by the user message and one bot message with that reply. *)
Theorem X4_reply_is_delivered (now later : Z) (rnd rnd' : string) (remote : FetchOutcome)
    (s : Chatbot) :
  Str.trim (inputValue s) <> "" ->
  let message := Str.trim (inputValue s) in
  let sent := mkMessage "user" (Str message) (DateObj now) (generateMessageId now rnd) in
  let s1 := sendMessage now rnd remote s in
  let n := (List.length (timers s) + 2)%nat in
  exists reply,
    nth_error (timers s1) n = Some (messageDelay (config s), TimerAddBot reply) /\
    match snd (getBotResponse (config s) (messageHistory s ++ [sent]) remote message) with
    | Normal v => reply = v
    | Throw _ => reply = Str apologyText
    end /\
    step s1 (runTimer later rnd' (TimerAddBot reply) (dropTimer n s1)) /\
    messageHistory (runTimer later rnd' (TimerAddBot reply) (dropTimer n s1))
    = (messageHistory s ++
       [sent; mkMessage "bot" reply (DateObj later) (generateMessageId later rnd')])%list.
Proof.
  intros Hne message sent s1 n.
  assert (Hs1 : s1 = sendMessage now rnd remote s) by reflexivity.
  rewrite (sendMessage_nonblank now rnd remote s Hne) in Hs1. cbv zeta in Hs1.
  fold message in Hs1.
  set (typing := showTyping (addMessage now rnd "user" (Str message) None
                               (updateSendButton (setInput "" s)))) in Hs1.
  assert (Htyping : config typing = config s /\
                    messageHistory typing = (messageHistory s ++ [sent])%list /\
                    timers typing
                    = (timers s ++ [(100%Z, TimerScroll); (100%Z, TimerScroll)])%list).
  { unfold typing, showTyping, scrollToBottom, setTimeout, setTyping.
    rewrite addMessage_state. cbv zeta. simpl.
    repeat split. now rewrite <- app_assoc. }
  destruct Htyping as (Hc & Hh & Ht). rewrite Hc, Hh in Hs1.
  clearbody typing s1.
  assert (Hrun : forall reply s2,
             timers s2 = (timers typing ++ [(messageDelay (config s), TimerAddBot reply)])%list ->
             messageHistory s2 = messageHistory typing ->
             nth_error (timers s2) n = Some (messageDelay (config s), TimerAddBot reply) /\
             messageHistory (runTimer later rnd' (TimerAddBot reply) (dropTimer n s2))
             = (messageHistory s ++
                [sent; mkMessage "bot" reply (DateObj later) (generateMessageId later rnd')])%list).
  { intros reply s2 Htm Hhist. split.
    - rewrite Htm, Ht, <- app_assoc. apply nth_error_after.
    - simpl. rewrite addMessage_history. simpl. rewrite Hhist, Hh.
      now rewrite <- app_assoc. }
  destruct (getBotResponse (config s) (messageHistory s ++ [sent]) remote message)
    as [effects [v|e]]; simpl snd; cbv iota.
  - exists v. destruct (Hrun v s1) as [Hn Hm]; [now rewrite Hs1 | now rewrite Hs1 |].
    repeat split; [exact Hn | | exact Hm].
    apply (step_timer later rnd' n (messageDelay (config s))). exact Hn.
  - exists (Str apologyText).
    destruct (Hrun (Str apologyText) s1) as [Hn Hm]; [now rewrite Hs1 | now rewrite Hs1 |].
    repeat split; [exact Hn | | exact Hm].
    apply (step_timer later rnd' n (messageDelay (config s))). exact Hn.
Qed.

(** [hello] is sent and answered by the greeting of the default
    configuration. *)
Lemma X4_reply_is_delivered_witness :
  let s := setInput "hello" (construct noOptions (mkStore None true true) 1000 "a") in
  exists reply,
    match snd (getBotResponse (config s)
                 (messageHistory s ++
                  [mkMessage "user" (Str (Str.trim (inputValue s))) (DateObj 2000)
                     (generateMessageId 2000 "r")])
                 FetchRejected (Str.trim (inputValue s))) with
    | Normal v => reply = v
    | Throw _ => reply = Str apologyText
    end.
Proof.
  intros s.
  destruct (X4_reply_is_delivered 2000 3000 "r" "q" FetchRejected s) as (reply & _ & H & _).
  - vm_compute. discriminate.
  - exists reply. exact H.
Defined.

(** ** Opening and closing *)

(** X5: [toggleChat] flips the open state, and with it the [show] class of
    the container and the [active] class of the toggle; it tracks one event,
    [chatbot_closed] or [chatbot_opened], sets the focus timer only when it
    opens, and leaves history and store alone. Toggling twice gives the open
    state back. *)
Theorem X5_toggle_flips (s : Chatbot) :
  isOpen (toggleChat s) = negb (isOpen s) /\
  containerShown (toggleChat s) = negb (isOpen s) /\
  toggleActive (toggleChat s) = negb (isOpen s) /\
  isOpen (toggleChat (toggleChat s)) = isOpen s /\
  conversation (toggleChat s) = conversation s /\
  trace (toggleChat s)
  = (trace s ++ [ConsoleLog (if isOpen s then "chatbot_closed" else "chatbot_opened") None])%list /\
  timers (toggleChat s)
  = (if isOpen s then timers s else timers s ++ [(300%Z, TimerFocus)])%list.
Proof.
  unfold toggleChat. destruct (isOpen s) eqn:E; simpl; rewrite ?E; repeat split.
Qed.

(** X6: the keyboard shortcuts. Escape closes an open widget and does nothing
    to a closed one; the key [k] with Ctrl or Cmd toggles; any other key, and
    [k] without the modifier, leaves the state as it is. The key is compared
    as it is reported, so a capital [K] is no shortcut. *)
Theorem X6_keyboard_shortcuts (key : string) (ctrlOrMeta : bool) (s : Chatbot) :
  (key = "Escape" -> isOpen s = true ->
   handleKeyboardShortcuts key ctrlOrMeta s = closeChat s) /\
  (key = "Escape" -> isOpen s = false ->
   handleKeyboardShortcuts key ctrlOrMeta s = s) /\
  (key = "k" -> ctrlOrMeta = true ->
   handleKeyboardShortcuts key ctrlOrMeta s = toggleChat s) /\
  (key <> "Escape" -> key <> "k" \/ ctrlOrMeta = false ->
   handleKeyboardShortcuts key ctrlOrMeta s = s).
Proof.
  unfold handleKeyboardShortcuts. repeat split.
  - intros -> Ho. rewrite Ho. simpl. now rewrite andb_false_r.
  - intros -> Ho. rewrite Ho. simpl. now rewrite andb_false_r.
  - intros -> ->. reflexivity.
  - intros Hesc Hk. apply String.eqb_neq in Hesc. rewrite Hesc. simpl.
    destruct Hk as [Hk | ->]; [|reflexivity].
    apply String.eqb_neq in Hk. rewrite Hk. now rewrite andb_false_r.
Qed.

Lemma X6_keyboard_shortcuts_witness :
  let s := openChat (construct noOptions (mkStore None true true) 1000 "a") in
  handleKeyboardShortcuts "Escape" false s = closeChat s /\
  handleKeyboardShortcuts "K" true s = s.
Proof.
  intros s.
  destruct (X6_keyboard_shortcuts "Escape" false s) as (Hesc & _).
  destruct (X6_keyboard_shortcuts "K" true s) as (_ & _ & _ & Hother).
  split.
  - apply Hesc; reflexivity.
  - apply Hother; [discriminate | left; discriminate].
Defined.

(** ** The rendered list and the store follow the history *)

Lemma view_setInput v s : view (setInput v s) = view s.
Proof. reflexivity. Qed.
Lemma view_updateSendButton s : view (updateSendButton s) = view s.
Proof. reflexivity. Qed.
Lemma view_showTyping s : view (showTyping s) = view s.
Proof. reflexivity. Qed.
Lemma view_hideTyping s : view (hideTyping s) = view s.
Proof. reflexivity. Qed.
Lemma view_emit es s : view (emit es s) = view s.
Proof. reflexivity. Qed.
Lemma view_setTimeout t d s : view (setTimeout t d s) = view s.
Proof. reflexivity. Qed.
Lemma view_trackEvent e d s : view (trackEvent e d s) = view s.
Proof. reflexivity. Qed.
Lemma view_scrollToBottom s : view (scrollToBottom s) = view s.
Proof. reflexivity. Qed.
Lemma view_setRefreshTransform v s : view (setRefreshTransform v s) = view s.
Proof. reflexivity. Qed.
Lemma view_dropTimer n s : view (dropTimer n s) = view s.
Proof. reflexivity. Qed.
Lemma view_openChat s : view (openChat s) = view s.
Proof. reflexivity. Qed.
Lemma view_closeChat s : view (closeChat s) = view s.
Proof. reflexivity. Qed.
Lemma view_updateConfig c s : view (updateConfig c s) = view s.
Proof. reflexivity. Qed.

Lemma view_toggleChat s : view (toggleChat s) = view s.
Proof. unfold toggleChat. now destruct (isOpen s). Qed.

Lemma view_handleKeyboardShortcuts key ctrlOrMeta s :
  view (handleKeyboardShortcuts key ctrlOrMeta s) = view s.
Proof.
  unfold handleKeyboardShortcuts.
  destruct (ctrlOrMeta && _); destruct (_ && isOpen s);
    rewrite ?view_toggleChat, ?view_closeChat; reflexivity.
Qed.

Create Rewrite HintDb view.
#[local] Hint Rewrite view_setInput view_updateSendButton view_showTyping view_hideTyping view_emit view_setTimeout view_trackEvent view_scrollToBottom view_setRefreshTransform view_dropTimer view_openChat view_closeChat view_updateConfig view_toggleChat
  view_handleKeyboardShortcuts : view.

Lemma settled_ext (s s' : Chatbot) : view s' = view s -> Spec.settled s -> Spec.settled s'.
Proof.
  unfold view, Spec.settled, Spec.inSync. intros [= Hh Hr Hs]. now rewrite Hh, Hr, Hs.
Qed.

Ltac same_view := eapply settled_ext; [autorewrite with view; reflexivity|].

(** A snapshot is left as it is by a second serialization. *)
Lemma snapshot_canonical (h : list Message) :
  map throughJSON (sliceLast 50 h)
  = map throughJSON (sliceLast 50 (map throughJSON (sliceLast 50 h))).
Proof.
  rewrite (sliceLast_all 50 (map throughJSON (sliceLast 50 h))).
  - rewrite map_map. apply map_ext. intros m. now rewrite throughJSON_idem.
  - rewrite length_map, sliceLast_length. lia.
Qed.

Lemma addMessage_settled (now : Z) (rnd sender : string) (content : JS)
    (timestamp : option Stamp) (s : Chatbot) :
  rendered s = messageHistory s -> Spec.selfWritten (store s) ->
  Spec.settled (addMessage now rnd sender content timestamp s).
Proof.
  intros Hr Hs. rewrite addMessage_state. cbv zeta.
  unfold Spec.settled, Spec.inSync, Spec.selfWritten. simpl.
  rewrite Hr. repeat split.
  - intros H. apply app_eq_nil in H as [_ H]. discriminate.
  - destruct (writable (store s)) eqn:E; simpl; [|congruence].
    intros _. now exists now.
  - destruct (writable (store s)); simpl; [|exact Hs].
    apply snapshot_canonical.
Qed.

Lemma saveMessageHistory_selfWritten (now : Z) (s : Chatbot) :
  Spec.selfWritten (store s) -> Spec.selfWritten (store (saveMessageHistory now s)).
Proof.
  intros H. unfold saveMessageHistory, setItem.
  destruct (writable (store s)); simpl; [|exact H].
  unfold Spec.selfWritten. simpl. apply snapshot_canonical.
Qed.

Lemma saveMessageHistory_rendered (now : Z) (s : Chatbot) :
  rendered (saveMessageHistory now s) = rendered s.
Proof. unfold saveMessageHistory. now destruct (setItem _ _). Qed.

Lemma clearHistory_settled (now : Z) (rnd : string) (s : Chatbot) :
  Spec.selfWritten (store s) -> Spec.settled (clearHistory now rnd s).
Proof.
  intros H. unfold clearHistory. apply addMessage_settled.
  - now rewrite saveMessageHistory_rendered, saveMessageHistory_history.
  - apply saveMessageHistory_selfWritten. exact H.
Qed.

(** [init] on an instance with nothing rendered and no history, over a store
    whose snapshot, if any, was written by the controller. *)
Lemma init_settled (now : Z) (rnd : string) (s : Chatbot) :
  messageHistory s = [] -> rendered s = [] -> Spec.selfWritten (store s) ->
  Spec.settled (init now rnd s).
Proof.
  intros Hh Hr Hs. unfold init.
  assert (Hload : (view (loadMessageHistory now s) = view s) \/
                  (exists t ms, item (store s) = Some (Parsed (Some t) (Some ms)) /\
                                view (loadMessageHistory now s) = (ms, ms, store s))).
  { unfold loadMessageHistory, getItem.
    destruct (readable (store s)); [|now left].
    destruct (item (store s)) as [[| | |[t|] [ms|]]|]; try (now left).
    destruct (now - t <? sevenDays)%Z; [|now left].
    right. now exists t, ms. }
  generalize dependent (loadMessageHistory now s). intros s1 Hload.
  assert (Hauto : view (if autoOpen (config s1)
                        then setTimeout TimerOpenChat 1000 s1 else s1) = view s1).
  { now destruct (autoOpen (config s1)). }
  generalize dependent (if autoOpen (config s1)
                        then setTimeout TimerOpenChat 1000 s1 else s1).
  intros s2 Hauto.
  unfold view in Hauto, Hload.
  destruct Hload as [Hsame | (t & ms & Hitem & Hadopt)].
  - rewrite Hsame in Hauto. injection Hauto as H2h H2r H2s.
    rewrite H2h, Hh. simpl.
    apply addMessage_settled; [now rewrite H2h, H2r, Hh, Hr | now rewrite H2s].
  - rewrite Hadopt in Hauto. injection Hauto as H2h H2r H2s.
    destruct (List.length (messageHistory s2) =? 0)%nat eqn:El.
    + apply addMessage_settled; [now rewrite H2h, H2r | now rewrite H2s].
    + unfold Spec.settled, Spec.inSync. rewrite H2h, H2r, H2s.
      unfold Spec.selfWritten in Hs. rewrite Hitem in Hs.
      repeat split.
      * intros ->. rewrite H2h in El. discriminate.
      * intros _. exists t. rewrite Hitem. unfold snapshotOf. now rewrite <- Hs.
      * unfold Spec.selfWritten. now rewrite Hitem.
Qed.

Lemma sendMessage_settled (now : Z) (rnd : string) (remote : FetchOutcome) (s : Chatbot) :
  Spec.settled s -> Spec.settled (sendMessage now rnd remote s).
Proof.
  intros H. destruct (Str.trim (inputValue s)) as [|c r] eqn:Et.
  - now rewrite sendMessage_blank.
  - rewrite sendMessage_nonblank by (rewrite Et; discriminate). cbv zeta.
    assert (Hu : Spec.settled
                   (addMessage now rnd "user" (Str (Str.trim (inputValue s))) None
                      (updateSendButton (setInput "" s)))).
    { destruct H as (Hr & _ & _ & Hs). apply addMessage_settled; [exact Hr | exact Hs]. }
    generalize dependent (addMessage now rnd "user" (Str (Str.trim (inputValue s))) None
                            (updateSendButton (setInput "" s))).
    intros sent Hu.
    destruct (getBotResponse _ _ remote _) as [effects [v|e]]; same_view; exact Hu.
Qed.

Lemma runTimer_settled (now : Z) (rnd : string) (t : Timer) (n : nat) (s : Chatbot) :
  Spec.settled s -> Spec.settled (runTimer now rnd t (dropTimer n s)).
Proof.
  intros H.
  assert (Hd : Spec.settled (dropTimer n s)) by (same_view; exact H).
  generalize dependent (dropTimer n s). intros d Hd.
  destruct t; simpl.
  - same_view. exact Hd.
  - same_view. exact Hd.
  - exact Hd.
  - same_view. exact Hd.
  - destruct Hd as (Hr & _ & _ & Hs). now apply addMessage_settled.
Qed.

Lemma construct_settled (options : Options) (st : Store) (now : Z) (rnd : string) :
  Spec.selfWritten st -> Spec.settled (construct options st now rnd).
Proof. intros H. unfold construct. now apply init_settled. Qed.

Lemma step_settled (s s' : Chatbot) : step s s' -> Spec.settled s -> Spec.settled s'.
Proof.
  intros Hstep H. destruct Hstep.
  - same_view. exact H.
  - now apply sendMessage_settled.
  - now apply runTimer_settled.
  - unfold refreshChat. cbv zeta.
    assert (Hc : Spec.settled (clearHistory now rnd s)).
    { apply clearHistory_settled. apply H. }
    generalize dependent (clearHistory now rnd s). intros cleared Hc.
    same_view. exact Hc.
  - apply clearHistory_settled. apply H.
  - same_view. exact H.
  - same_view. exact H.
  - same_view. exact H.
  - same_view. exact H.
  - same_view. exact H.
  - apply construct_settled. apply H.
Qed.

Lemma reachable_settled (s : Chatbot) : reachable s -> Spec.settled s.
Proof.
  induction 1 as [options st now rnd Hitem | s s' _ IH Hstep].
  - apply construct_settled. unfold Spec.selfWritten. now rewrite Hitem.
  - exact (step_settled _ _ Hstep IH).
Qed.

(** X7: in every state the controller reaches (on a page whose message list
    starts empty) the rendered list shows exactly the messages of the history,
    in order, and the history is never empty: it holds at least the welcome
    message or what was loaded. *)
Theorem X7_rendered_shows_history (s : Chatbot) :
  reachable s -> rendered s = messageHistory s /\ messageHistory s <> [].
Proof.
  intros H. destruct (reachable_settled s H) as (Hr & Hne & _). now split.
Qed.

Lemma X7_rendered_shows_history_witness :
  let s := refreshChat 2000 "r" (construct noOptions (mkStore None true true) 1000 "a") in
  rendered s = messageHistory s /\ messageHistory s <> [].
Proof.
  intros s. apply (X7_rendered_shows_history s).
  apply (reach_step (construct noOptions (mkStore None true true) 1000 "a")).
  - apply reach_first. reflexivity.
  - apply step_refresh.
Defined.

(** X8: persistence is write-through. In every reachable state whose store
    takes writes, the stored snapshot is the serialized form of the last 50
    messages of the history in memory, with the time of the last save; and
    whatever the store, a stored snapshot never holds more than 50 messages. *)
Theorem X8_snapshot_follows_history (s : Chatbot) :
  reachable s ->
  (writable (store s) = true ->
   exists t, item (store s)
             = Some (Parsed (Some t) (Some (map throughJSON (sliceLast 50 (messageHistory s)))))) /\
  (forall t ms, item (store s) = Some (Parsed t (Some ms)) -> (List.length ms <= 50)%nat).
Proof.
  intros H. destruct (reachable_settled s H) as (_ & _ & Hsync & Hself). split.
  - exact Hsync.
  - intros t ms Hitem. unfold Spec.selfWritten in Hself. rewrite Hitem in Hself.
    rewrite Hself, length_map, sliceLast_length. lia.
Qed.

Lemma X8_snapshot_follows_history_witness :
  let s := clearHistory 2000 "r" (construct noOptions (mkStore None true true) 1000 "a") in
  exists t, item (store s)
            = Some (Parsed (Some t) (Some (map throughJSON (sliceLast 50 (messageHistory s))))).
Proof.
  intros s. destruct (X8_snapshot_follows_history s) as [H _].
  - apply (reach_step (construct noOptions (mkStore None true true) 1000 "a")).
    + apply reach_first. reflexivity.
    + apply step_clear.
  - apply H. vm_compute. reflexivity.
Defined.

Lemma length_zero_iff {A : Type} (l : list A) : (List.length l =? 0)%nat = true <-> l = [].
Proof. destruct l; simpl; split; congruence. Qed.

(** X9: reloading the page. From a reachable state whose store can be read
    and written, a new instance built less than seven days after the last
    save starts with the serialized last 50 messages of the old history,
    rendered, and adds no welcome message; built seven days or more after
    it, it starts with the welcome message alone. *)
Theorem X9_reload_restores (options : Options) (now : Z) (rnd : string) (s : Chatbot) :
  reachable s ->
  writable (store s) = true ->
  readable (store s) = true ->
  exists saved,
    item (store s) = Some (snapshotOf saved (messageHistory s)) /\
    ((now - saved < sevenDays)%Z ->
     messageHistory (construct options (store s) now rnd)
       = map throughJSON (sliceLast 50 (messageHistory s)) /\
     rendered (construct options (store s) now rnd)
       = map throughJSON (sliceLast 50 (messageHistory s))) /\
    ((sevenDays <= now - saved)%Z ->
     messageHistory (construct options (store s) now rnd)
       = [Spec.welcome (mergeConfig defaultConfig options) now rnd]).
Proof.
  intros Hreach Hw Hr.
  destruct (reachable_settled s Hreach) as (_ & Hne & Hsync & _).
  destruct (Hsync Hw) as [saved Hitem].
  exists saved. split; [exact Hitem|]. split.
  - intros Hage. unfold construct, init.
    rewrite (loadMessageHistory_fresh now saved
               (map throughJSON (sliceLast 50 (messageHistory s))));
      [ | exact Hr | exact Hitem | exact Hage ].
    assert (Hms : map throughJSON (sliceLast 50 (messageHistory s)) <> []).
    { intros E. apply (f_equal (@List.length Message)) in E.
      rewrite length_map, sliceLast_length in E. simpl in E.
      destruct (messageHistory s); [contradiction | simpl in E; lia]. }
    generalize dependent (map throughJSON (sliceLast 50 (messageHistory s))).
    intros ms Hms.
    assert (El : (List.length ms =? 0)%nat = false).
    { destruct (List.length ms =? 0)%nat eqn:E; [|reflexivity].
      apply length_zero_iff in E. contradiction. }
    set (s1 := renderMessageHistory (setHistory ms (fresh options (store s)))).
    assert (H1 : messageHistory s1 = ms /\ rendered s1 = ms) by (split; reflexivity).
    clearbody s1. destruct H1 as [H1h H1r].
    destruct (autoOpen (config s1)).
    + change (messageHistory (setTimeout TimerOpenChat 1000 s1)) with (messageHistory s1).
      rewrite H1h, El. split; [exact H1h | exact H1r].
    + rewrite H1h, El. split; [exact H1h | exact H1r].
  - intros Hold.
    assert (Hno : Spec.noSnapshot now (store (fresh options (store s)))).
    { apply (Spec.snapshot_old now _ saved (Some (map throughJSON (sliceLast 50 (messageHistory s)))));
        [exact Hitem | exact Hold]. }
    destruct (loadMessageHistory_noSnapshot now (fresh options (store s)) Hno)
      as (Hh & _).
    unfold construct. rewrite init_eq by exact Hh.
    rewrite addMessage_history.
    now destruct (autoOpen (config (fresh options (store s)))); simpl; rewrite Hh.
Qed.

(** The welcome message and one user message come back after a reload one
    day later. *)
Lemma X9_reload_restores_witness :
  let s := sendMessage 2000 "r" FetchRejected
             (updateSendButton
                (setInput "hello" (construct noOptions (mkStore None true true) 1000 "a"))) in
  exists saved,
    item (store s) = Some (snapshotOf saved (messageHistory s)) /\
    ((86400000 - saved < sevenDays)%Z ->
     messageHistory (construct noOptions (store s) 86400000 "b")
       = map throughJSON (sliceLast 50 (messageHistory s))).
Proof.
  intros s.
  destruct (X9_reload_restores noOptions 86400000 "b" s) as (saved & Hi & Hf & _).
  - apply (reach_step (updateSendButton
                         (setInput "hello" (construct noOptions (mkStore None true true) 1000 "a")))).
    + apply (reach_step (construct noOptions (mkStore None true true) 1000 "a")).
      * apply reach_first. reflexivity.
      * apply step_input.
    + apply step_send.
  - vm_compute. reflexivity.
  - vm_compute. reflexivity.
  - exists saved. split; [exact Hi|]. intros Hage. exact (proj1 (Hf Hage)).
Defined.

(** ** When the store refuses writes *)

(** X10: persistence is best effort. When the store refuses writes,
    [addMessage] still appends the message to the history and to the rendered
    list, leaves the store as it was and logs one warning; and
    [clearHistory] still resets the history to the welcome message while the
    old snapshot stays in the store. *)
Theorem X10_unwritable_store (now : Z) (rnd sender : string) (content : JS) (s : Chatbot) :
  writable (store s) = false ->
  let m := mkMessage sender content (DateObj now) (generateMessageId now rnd) in
  messageHistory (addMessage now rnd sender content None s) = (messageHistory s ++ [m])%list /\
  rendered (addMessage now rnd sender content None s) = (rendered s ++ [m])%list /\
  store (addMessage now rnd sender content None s) = store s /\
  trace (addMessage now rnd sender content None s)
    = (trace s ++ [ConsoleWarn "Could not save message history:"])%list /\
  messageHistory (clearHistory now rnd s) = [Spec.welcome (config s) now rnd] /\
  store (clearHistory now rnd s) = store s.
Proof.
  intros Hw m.
  assert (Hsave : forall x, store x = store s ->
                  saveMessageHistory now x
                  = emit [ConsoleWarn "Could not save message history:"] x).
  { intros x Hx. unfold saveMessageHistory, setItem. now rewrite Hx, Hw. }
  rewrite addMessage_state. cbv zeta. simpl. rewrite Hw.
  repeat split.
  - unfold clearHistory. rewrite Hsave by reflexivity.
    rewrite addMessage_history. reflexivity.
  - unfold clearHistory. rewrite Hsave by reflexivity.
    rewrite addMessage_state. cbv zeta. simpl. now rewrite Hw.
Qed.

Lemma X10_unwritable_store_witness :
  let s := construct noOptions (mkStore (Some Unparseable) true false) 1000 "a" in
  store (clearHistory 2000 "r" s) = store s.
Proof.
  intros s.
  destruct (X10_unwritable_store 2000 "r" "bot" Null s) as (_ & _ & _ & _ & _ & H).
  - vm_compute. reflexivity.
  - exact H.
Defined.

(** ** The local policy, case by case *)

(** X11: what the local policy can return. A result is either the reply of
    an entry other than [default] whose key, as written, occurs in the
    lowercased text; or, when no such entry exists, the default template
    with its first placeholder replaced; and it throws exactly when no entry
    matches and there is no [default] entry. *)
Theorem X11_local_policy_cases (cfg : Config) (message : string) :
  let entries := Object.entries (responses cfg) in
  let lowerMessage := Str.toLowerCase message in
  let unmatched :=
    Forall (fun kv => fst kv = "default" \/ Str.includes lowerMessage (fst kv) = false)
           entries in
  (forall reply,
      localPolicy cfg message = Normal reply ->
      (exists key text,
          reply = Str text /\ In (key, text) entries /\ key <> "default" /\
          Str.includes lowerMessage key = true) \/
      (exists template,
          unmatched /\
          Object.get (Object.own (responses cfg)) "default" = Some template /\
          reply = Str (Str.replace template "{message}" message))) /\
  ((exists e, localPolicy cfg message = Throw e) <->
   unmatched /\ Object.get (Object.own (responses cfg)) "default" = None).
Proof.
  intros entries lowerMessage unmatched. unfold localPolicy.
  fold entries lowerMessage.
  destruct (scanEntries entries lowerMessage) as [text|] eqn:Hscan.
  - split.
    + intros reply [= <-]. left.
      destruct (scanEntries_split _ _ _ Hscan) as (before & key & after & E & Hk & Hin & _).
      exists key, text. repeat split; auto.
      rewrite E. apply in_or_app. right. now left.
    + split.
      * intros [e H]. discriminate.
      * intros [Hun _]. apply scanEntries_none in Hun. congruence.
  - apply scanEntries_none in Hscan.
    destruct (Object.get (Object.own (responses cfg)) "default") as [template|] eqn:Hdef.
    + split.
      * intros reply [= <-]. right. now exists template.
      * split; [intros [e H]; discriminate | intros [_ H]; discriminate].
    + split.
      * intros reply H. discriminate.
      * split; [now intros _ | intros _; now exists TypeError].
Qed.

Lemma X11_local_policy_cases_witness :
  exists e, localPolicy (withResponses greetingOnly) "goodbye" = Throw e.
Proof.
  destruct (X11_local_policy_cases (withResponses greetingOnly) "goodbye") as [_ [_ H]].
  apply H. split.
  - change (Object.entries (responses (withResponses greetingOnly))) with greetingOnly.
    constructor; [right; reflexivity | constructor].
  - reflexivity.
Defined.

Lemma includes_empty (s : string) : Str.includes s "" = true.
Proof. rewrite includes_eq. now destruct s. Qed.

(** X12: an entry with the empty key matches every text: with such an entry
    (other than under [default]) the local policy always returns a
    configured reply, never the default template and never an error. *)
Theorem X12_empty_key_matches_all (cfg : Config) (message reply : string) :
  In ("", reply) (Object.entries (responses cfg)) ->
  exists key text,
    localPolicy cfg message = Normal (Str text) /\
    In (key, text) (Object.entries (responses cfg)) /\ key <> "default".
Proof.
  intros Hin. unfold localPolicy.
  destruct (scanEntries _ _) as [text|] eqn:Hscan.
  - destruct (scanEntries_split _ _ _ Hscan) as (before & key & after & E & Hk & _).
    exists key, text. repeat split; auto.
    rewrite E. apply in_or_app. right. now left.
  - exfalso. apply scanEntries_none in Hscan. rewrite Forall_forall in Hscan.
    destruct (Hscan _ Hin) as [H|H]; simpl in H; [discriminate|].
    rewrite includes_empty in H. discriminate.
Qed.

Lemma X12_empty_key_matches_all_witness :
  exists key text,
    localPolicy (withResponses [("", "Tell me more."); ("default", "Thanks!")]) "anything"
      = Normal (Str text) /\
    In (key, text) (Object.entries (responses
         (withResponses [("", "Tell me more."); ("default", "Thanks!")]))) /\
    key <> "default".
Proof.
  apply (X12_empty_key_matches_all
           (withResponses [("", "Tell me more."); ("default", "Thanks!")])
           "anything" "Tell me more.").
  vm_compute. now left.
Defined.

(** ** The error branch of [sendMessage] *)

(** X13: without a [default] entry the catch branch of [sendMessage] is
    live. When the map of responses has no [default] entry, no key occurs in
    the lowercased trimmed input, and the answer is left to the local policy
    (no endpoint, or the remote call failed), [sendMessage] logs the error
    and schedules the fixed apology as the bot message. *)
Theorem X13_missing_default_apology (now : Z) (rnd : string) (remote : FetchOutcome)
    (s : Chatbot) :
  Str.trim (inputValue s) <> "" ->
  Object.get (Object.own (responses (config s))) "default" = None ->
  scanEntries (Object.entries (responses (config s)))
    (Str.toLowerCase (Str.trim (inputValue s))) = None ->
  endpointSet (config s) = None \/ Spec.remoteFailed remote ->
  In (messageDelay (config s), TimerAddBot (Str apologyText))
     (timers (sendMessage now rnd remote s)) /\
  In (ConsoleError "Error getting bot response:") (trace (sendMessage now rnd remote s)).
Proof.
  intros Hne Hdef Hscan Hlocal.
  rewrite (sendMessage_nonblank now rnd remote s Hne). cbv zeta.
  set (message := Str.trim (inputValue s)) in *.
  set (typing := showTyping (addMessage now rnd "user" (Str message) None
                               (updateSendButton (setInput "" s)))).
  assert (Hc : config typing = config s).
  { unfold typing, showTyping, scrollToBottom, setTimeout, setTyping. simpl.
    rewrite addMessage_config. reflexivity. }
  rewrite Hc.
  assert (Hthrow : snd (getBotResponse (config s) (messageHistory typing) remote message)
                   = Throw TypeError).
  { assert (Hloc : localPolicy (config s) message = Throw TypeError).
    { unfold localPolicy. now rewrite Hscan, Hdef. }
    destruct (getBotResponse_result (config s) (messageHistory typing) remote message)
      as [H | (data & v & Hrem & Hpick & H)].
    - now rewrite H.
    - destruct Hlocal as [Hno | Hfail].
      + rewrite getBotResponse_local in H by exact Hno. simpl in H. congruence.
      + subst remote. inversion Hfail; subst. discriminate. }
  clearbody typing.
  destruct (getBotResponse (config s) (messageHistory typing) remote message)
    as [effects result].
  simpl in Hthrow. subst result. simpl. split.
  - apply in_or_app. right. now left.
  - apply in_or_app. left. apply in_or_app. right. now left.
Qed.

Lemma X13_missing_default_apology_witness :
  let s := setInput "goodbye"
             (construct (onlyResponses greetingOnly) (mkStore None true true) 1000 "a") in
  In (messageDelay (config s), TimerAddBot (Str apologyText))
     (timers (sendMessage 2000 "r" FetchRejected s)).
Proof.
  intros s.
  destruct (X13_missing_default_apology 2000 "r" FetchRejected s) as [H _].
  - vm_compute. discriminate.
  - vm_compute. reflexivity.
  - vm_compute. reflexivity.
  - left. vm_compute. reflexivity.
  - exact H.
Defined.

(** ** A success response of the endpoint *)

(** X14: with an endpoint configured and a success response whose body is
    JSON other than [null], the resolver posts the text with the last ten
    messages of the history at most and returns the [message] of the body
    when that is truthy, else its [response] when that is truthy, else the
    fixed text; the configured responses play no part. *)
Theorem X14_remote_success (cfg : Config) (url : string) (history : list Message)
    (message : string) (data : JS) :
  endpointSet cfg = Some url ->
  data <> Null ->
  getBotResponse cfg history (FetchResponse true (BodyJSON data)) message
  = ([FetchPost url message (sliceLast 10 history)],
     Normal (orElse (Spec.field data "message")
               (orElse (Spec.field data "response") (Str sorryText)))) /\
  (List.length (sliceLast 10 history) <= 10)%nat /\
  (exists older, history = older ++ sliceLast 10 history)%list.
Proof.
  intros Hurl Hnull. split; [|split].
  - unfold getBotResponse. rewrite Hurl.
    assert (Hp : pickReply data
                 = Normal (orElse (Spec.field data "message")
                             (orElse (Spec.field data "response") (Str sorryText)))).
    { unfold pickReply, pickResponse, getProp, orElse, Spec.field.
      destruct data as [|b|z|t|items|ms]; try reflexivity; [contradiction|].
      destruct (member "message" ms) as [m|]; [|reflexivity].
      destruct (truthy (Some m)); reflexivity. }
    now rewrite Hp.
  - rewrite sliceLast_length. lia.
  - apply sliceLast_suffix.
Qed.

(** A body with both fields: [message] wins. *)
Lemma X14_remote_success_witness :
  snd (getBotResponse (withEndpoint chatUrl) []
         (FetchResponse true
            (BodyJSON (Obj [("response", Str "second"); ("message", Str "first")])))
         "hello")
  = Normal (Str "first").
Proof.
  destruct (X14_remote_success (withEndpoint chatUrl) chatUrl [] "hello"
              (Obj [("response", Str "second"); ("message", Str "first")])) as [H _].
  - reflexivity.
  - discriminate.
  - rewrite H. reflexivity.
Defined.

(** ** Statistics of any history *)

Lemma count_le_by_sender (h : list Message) :
  (List.length (filter (fun msg => String.eqb (sender msg) "user") h)
   + List.length (filter (fun msg => String.eqb (sender msg) "bot") h)
   <= List.length h)%nat /\
  ((List.length (filter (fun msg => String.eqb (sender msg) "user") h)
    + List.length (filter (fun msg => String.eqb (sender msg) "bot") h)
    = List.length h)%nat <-> Forall Spec.senderOk h).
Proof.
  induction h as [|m h [IHle IHeq]]; simpl.
  - split; [lia | split; [constructor | reflexivity]].
  - destruct (String.eqb_spec (sender m) "user") as [Eu|Nu];
      destruct (String.eqb_spec (sender m) "bot") as [Eb|Nb]; simpl.
    + congruence.
    + split; [lia|]. split.
      * intros H. constructor; [now left | apply IHeq; lia].
      * intros H. inversion H; subst. apply IHeq in H3. lia.
    + split; [lia|]. split.
      * intros H. constructor; [now right | apply IHeq; lia].
      * intros H. inversion H; subst. apply IHeq in H3. lia.
    + split; [lia|]. split.
      * intros H. lia.
      * intros H. inversion H as [|? ? [Hs|Hs] _]; subst; contradiction.
Qed.

(** X15: for any history, also one that holds messages with other senders
    (the public [addMessage] takes any sender), [getStats] counts no message
    twice: userMessages + botMessages is at most totalMessages, with equality
    exactly when every sender is [user] or [bot]; and of an empty history it
    reports zero messages and no first or last timestamp. *)
Theorem X15_stats_of_any_history (s : Chatbot) :
  (userMessages (getStats s) + botMessages (getStats s) <= totalMessages (getStats s))%nat /\
  ((userMessages (getStats s) + botMessages (getStats s) = totalMessages (getStats s))%nat
   <-> Forall Spec.senderOk (messageHistory s)) /\
  (messageHistory s = [] ->
   totalMessages (getStats s) = 0%nat /\
   firstMessage (getStats s) = None /\ lastMessage (getStats s) = None).
Proof.
  unfold getStats. simpl.
  destruct (count_le_by_sender (messageHistory s)) as [Hle Heq].
  split; [exact Hle|]. split; [exact Heq|].
  intros ->. repeat split.
Qed.

Lemma X15_stats_of_any_history_witness :
  let s := setHistory [] (fresh noOptions (mkStore None true true)) in
  totalMessages (getStats s) = 0%nat /\
  firstMessage (getStats s) = None /\ lastMessage (getStats s) = None.
Proof.
  intros s. destruct (X15_stats_of_any_history s) as (_ & _ & H).
  apply H. reflexivity.
Defined.

(** ** The history in memory only grows *)

(** X16: sending and timers never remove, reorder or truncate the messages
    in memory: after [sendMessage], and after any timer has run, the old
    history is a prefix of the new one and at most one message is added. The
    bound of 50 applies to the snapshot only. *)
Theorem X16_history_grows (now : Z) (rnd : string) (s : Chatbot) :
  (forall remote,
      exists added,
        messageHistory (sendMessage now rnd remote s) = (messageHistory s ++ added)%list /\
        (List.length added <= 1)%nat) /\
  (forall t n,
      exists added,
        messageHistory (runTimer now rnd t (dropTimer n s)) = (messageHistory s ++ added)%list /\
        (List.length added <= 1)%nat).
Proof.
  split.
  - intros remote. destruct (Str.trim (inputValue s)) as [|c r] eqn:Et.
    + exists []. rewrite sendMessage_blank by exact Et. rewrite app_nil_r.
      split; [reflexivity | simpl; lia].
    + rewrite sendMessage_nonblank by (rewrite Et; discriminate). cbv zeta.
      exists [mkMessage "user" (Str (Str.trim (inputValue s))) (DateObj now)
                (generateMessageId now rnd)].
      split; [|simpl; lia].
      assert (Hh : forall x,
                 conversation x
                 = conversation
                     (addMessage now rnd "user" (Str (Str.trim (inputValue s))) None
                        (updateSendButton (setInput "" s))) ->
                 messageHistory x
                 = (messageHistory s ++
                    [mkMessage "user" (Str (Str.trim (inputValue s))) (DateObj now)
                       (generateMessageId now rnd)])%list).
      { intros x Hx. unfold conversation in Hx. injection Hx as Hx _.
        rewrite Hx, addMessage_history. reflexivity. }
      destruct (getBotResponse _ _ remote _) as [effects [v|e]];
        apply Hh; autorewrite with conversation; reflexivity.
  - intros t n. destruct t; simpl.
    + exists []. rewrite app_nil_r. split; [reflexivity | simpl; lia].
    + exists []. rewrite app_nil_r. split; [reflexivity | simpl; lia].
    + exists []. rewrite app_nil_r. split; [reflexivity | simpl; lia].
    + exists []. rewrite app_nil_r. split; [reflexivity | simpl; lia].
    + rewrite addMessage_history. eexists. split; [reflexivity | simpl; lia].
Qed.

(** ** Opening by itself *)

Lemma loadMessageHistory_shape (now : Z) (s : Chatbot) :
  isOpen (loadMessageHistory now s) = isOpen s /\
  config (loadMessageHistory now s) = config s /\
  (timers (loadMessageHistory now s) = timers s \/
   timers (loadMessageHistory now s) = (timers s ++ [(100%Z, TimerScroll)])%list).
Proof.
  unfold loadMessageHistory, getItem.
  destruct (readable (store s)); [|now repeat split; try left].
  destruct (item (store s)) as [[| | |[t|] [ms|]]|]; try (now repeat split; try left).
  destruct (now - t <? sevenDays)%Z; [|now repeat split; try left].
  repeat split. now right.
Qed.

(** X17: the widget never starts open. [autoOpen] only sets a timer: the
    instance the constructor returns is closed, its timers hold the opening
    timer exactly when [autoOpen] is configured, always with the delay of
    1000 ms, and running that timer opens the widget. *)
Theorem X17_auto_open_is_deferred (options : Options) (st : Store) (now : Z) (rnd : string) :
  let cfg := mergeConfig defaultConfig options in
  let c := construct options st now rnd in
  isOpen c = false /\
  (In (1000%Z, TimerOpenChat) (timers c) <-> autoOpen cfg = true) /\
  (forall d, In (d, TimerOpenChat) (timers c) -> d = 1000%Z) /\
  (forall n, isOpen (runTimer now rnd TimerOpenChat (dropTimer n c)) = true).
Proof.
  intros cfg c. unfold c, construct, init.
  destruct (loadMessageHistory_shape now (fresh options st)) as (Ho & Hc & Ht).
  simpl in Ho, Hc, Ht. fold cfg in Hc.
  generalize dependent (loadMessageHistory now (fresh options st)).
  intros s1 Ho Hc Ht. rewrite Hc.
  assert (Hcases :
            forall s2, isOpen s2 = false ->
                       timers s2 = (if autoOpen cfg then [(1000%Z, TimerOpenChat)] else [])
                       \/ timers s2 = ((if autoOpen cfg then [(1000%Z, TimerOpenChat)] else [])
                                       ++ [(100%Z, TimerScroll)])%list
                       \/ timers s2 = ([(100%Z, TimerScroll)]
                                       ++ (if autoOpen cfg then [(1000%Z, TimerOpenChat)] else []))%list
                       \/ timers s2 = ([(100%Z, TimerScroll)]
                                       ++ (if autoOpen cfg then [(1000%Z, TimerOpenChat)] else [])
                                       ++ [(100%Z, TimerScroll)])%list ->
                       isOpen s2 = false /\
                       (In (1000%Z, TimerOpenChat) (timers s2) <-> autoOpen cfg = true) /\
                       (forall d, In (d, TimerOpenChat) (timers s2) -> d = 1000%Z) /\
                       (forall n, isOpen (runTimer now rnd TimerOpenChat (dropTimer n s2)) = true)).
  { intros s2 Hopen Htimers. split; [exact Hopen|].
    destruct (autoOpen cfg);
      destruct Htimers as [E|[E|[E|E]]]; rewrite E; simpl;
      (split; [split; [intros H; intuition congruence | intros H; try discriminate; intuition]|]);
      (split; [intros d H; intuition congruence | reflexivity]). }
  destruct (autoOpen cfg) eqn:Ea.
  - set (s2 := setTimeout TimerOpenChat 1000 s1).
    assert (Ho2 : isOpen s2 = false) by exact Ho.
    assert (Ht2 : timers s2 = (timers s1 ++ [(1000%Z, TimerOpenChat)])%list) by reflexivity.
    clearbody s2.
    destruct (List.length (messageHistory s2) =? 0)%nat.
    + rewrite addMessage_state. cbv zeta. apply Hcases; [exact Ho2|]. simpl.
      rewrite Ht2. destruct Ht as [-> | ->]; simpl; auto.
    + apply Hcases; [exact Ho2|]. rewrite Ht2.
      destruct Ht as [-> | ->]; simpl; auto.
  - destruct (List.length (messageHistory s1) =? 0)%nat.
    + rewrite addMessage_state. cbv zeta. apply Hcases; [exact Ho|]. simpl.
      destruct Ht as [-> | ->]; simpl; auto.
    + apply Hcases; [exact Ho|]. destruct Ht as [-> | ->]; simpl; auto.
Qed.

(** ** What leaves the page *)

Lemma config_showTyping (x : Chatbot) : config (showTyping x) = config x.
Proof. reflexivity. Qed.

Lemma history_showTyping (x : Chatbot) : messageHistory (showTyping x) = messageHistory x.
Proof. reflexivity. Qed.

Lemma config_cleared (v : string) (s : Chatbot) :
  config (updateSendButton (setInput v s)) = config s.
Proof. reflexivity. Qed.

Lemma history_cleared (v : string) (s : Chatbot) :
  messageHistory (updateSendButton (setInput v s)) = messageHistory s.
Proof. reflexivity. Qed.

(** [sendMessage] on a non-blank input, with the resolver called on the
    configuration and on the history that holds the new user message. *)
Lemma sendMessage_resolved (now : Z) (rnd : string) (remote : FetchOutcome) (s : Chatbot) :
  Str.trim (inputValue s) <> "" ->
  let message := Str.trim (inputValue s) in
  let sent := mkMessage "user" (Str message) (DateObj now) (generateMessageId now rnd) in
  let x := addMessage now rnd "user" (Str message) None (updateSendButton (setInput "" s)) in
  sendMessage now rnd remote s
  = match getBotResponse (config s) (messageHistory s ++ [sent]) remote message with
    | (effects, Normal response) =>
        trackEvent "message_sent" (Some message)
          (setTimeout (TimerAddBot response) (messageDelay (config s))
             (hideTyping (emit (ResolverCall message :: effects) (showTyping x))))
    | (effects, Throw _) =>
        trackEvent "message_sent" (Some message)
          (setTimeout (TimerAddBot (Str apologyText)) (messageDelay (config s))
             (hideTyping
                (emit ((ResolverCall message :: effects)
                       ++ [ConsoleError "Error getting bot response:"])
                   (showTyping x))))
    end.
Proof.
  intros Hne message sent x.
  rewrite (sendMessage_nonblank now rnd remote s Hne). cbv zeta. fold message. fold x.
  rewrite config_showTyping, history_showTyping.
  unfold x. rewrite addMessage_config, addMessage_history, config_cleared, history_cleared.
  fold sent.
  destruct (getBotResponse (config s) (messageHistory s ++ [sent]) remote message)
    as [effects [v|e]]; [reflexivity|].
  now rewrite emit_emit.
Qed.

(** The effects of one non-blank [sendMessage], in order: the warning of a
    refused save if any, the call of the resolver and its effects, the error
    log if it threw, and the tracked event. *)
Lemma sendMessage_trace (now : Z) (rnd : string) (remote : FetchOutcome) (s : Chatbot) :
  Str.trim (inputValue s) <> "" ->
  let message := Str.trim (inputValue s) in
  let sent := mkMessage "user" (Str message) (DateObj now) (generateMessageId now rnd) in
  let answer := getBotResponse (config s) (messageHistory s ++ [sent]) remote message in
  exists w,
    (w = [] \/ w = [ConsoleWarn "Could not save message history:"]) /\
    trace (sendMessage now rnd remote s)
    = (trace s ++ w ++ [ResolverCall message] ++ fst answer
       ++ match snd answer with
          | Normal _ => []
          | Throw _ => [ConsoleError "Error getting bot response:"]
          end
       ++ [ConsoleLog "message_sent" (Some message)])%list.
Proof.
  intros Hne message sent answer.
  destruct (sent_fields now rnd message s) as (_ & _ & _ & _ & _ & _ & _ & Xe).
  rewrite (sendMessage_resolved now rnd remote s Hne). cbv zeta.
  fold message. fold sent. fold answer.
  generalize dependent (addMessage now rnd "user" (Str message) None
                          (updateSendButton (setInput "" s))).
  intros x Xe.
  assert (Hw : exists w,
             (w = [] \/ w = [ConsoleWarn "Could not save message history:"]) /\
             trace x = (trace s ++ w)%list).
  { destruct Xe as [E | E]; [exists [] | eexists]; (split; [auto|]); rewrite E;
      [now rewrite app_nil_r | reflexivity]. }
  destruct Hw as (w & Hw & Ew). exists w. split; [exact Hw|].
  destruct answer as [effects [v|e]]; simpl fst; simpl snd; cbv iota;
    match goal with
    | |- trace (trackEvent ?e ?d (setTimeout ?t ?dl (hideTyping (emit ?es (showTyping x))))) = _ =>
        destruct (scheduled_fields e d t dl es x) as (_ & _ & _ & _ & _ & _ & _ & _ & _ & Re);
        cbv zeta in Re; rewrite Re
    end;
    rewrite Ew; repeat first [progress simpl | rewrite <- app_assoc]; reflexivity.
Qed.

(** X18: without an endpoint nothing is sent out. When [apiEndpoint] is
    [null] or the empty string, [sendMessage] gives the same state whatever
    the network would do, and every request in its trace was there before. *)
Theorem X18_no_endpoint_no_request (now : Z) (rnd : string) (s : Chatbot) :
  apiEndpoint (config s) = None \/ apiEndpoint (config s) = Some "" ->
  (forall remote remote',
      sendMessage now rnd remote s = sendMessage now rnd remote' s) /\
  (forall remote e,
      Spec.isRequest e = true ->
      In e (trace (sendMessage now rnd remote s)) -> In e (trace s)).
Proof.
  intros Hend.
  assert (Hno : endpointSet (config s) = None).
  { unfold endpointSet. now destruct Hend as [-> | ->]. }
  destruct (Str.trim (inputValue s)) as [|c r] eqn:Et.
  - split.
    + intros remote remote'. now rewrite !sendMessage_blank.
    + intros remote e _. now rewrite sendMessage_blank.
  - assert (Hne : Str.trim (inputValue s) <> "") by (rewrite Et; discriminate).
    split.
    + intros remote remote'.
      rewrite (sendMessage_resolved now rnd remote s Hne).
      rewrite (sendMessage_resolved now rnd remote' s Hne). cbv zeta.
      now rewrite !(getBotResponse_local (config s) _ _ _ Hno).
    + intros remote e He Hin.
      destruct (sendMessage_trace now rnd remote s Hne) as (w & Hw & Htr).
      cbv zeta in Htr. rewrite Htr in Hin. clear Htr.
      rewrite getBotResponse_local in Hin by exact Hno. simpl fst in Hin. simpl snd in Hin.
      apply in_app_or in Hin as [Hin | Hin]; [exact Hin|].
      apply in_app_or in Hin as [Hin | Hin].
      { destruct Hw as [-> | ->]; [destruct Hin|].
        destruct Hin as [<- | []]. discriminate. }
      destruct Hin as [<- | Hin]; [discriminate|].
      simpl in Hin.
      apply in_app_or in Hin as [Hin | Hin].
      { destruct (localPolicy _ _); [destruct Hin|].
        destruct Hin as [<- | []]. discriminate. }
      destruct Hin as [<- | []]. discriminate.
Qed.

Lemma X18_no_endpoint_no_request_witness :
  let s := setInput "hello" (construct noOptions (mkStore None true true) 1000 "a") in
  sendMessage 2000 "r" FetchRejected s
  = sendMessage 2000 "r" (FetchResponse true (BodyJSON (Str "hi"))) s.
Proof.
  intros s.
  destruct (X18_no_endpoint_no_request 2000 "r" s) as [H _].
  - left. reflexivity.
  - apply H.
Defined.




